(** * DockWidgetTab: the draggable tab of a dock widget

    A shallow embedding of [src/DockWidgetTab.cpp] (namespace [ads]):
    the private data of [CDockWidgetTab], its mouse handlers, and
    [DockWidgetTabPrivate::startFloating].

    Conventions.
    - C++ [int] values are [Z]; the coordinates and counts handled here
      are widget coordinates and tab counts, far from the range where
      signed arithmetic overflows.
    - Pointers are abstract addresses; a nullable pointer is an [option]
      and dereferencing [None] makes the handler undefined ([None]).
    - The collaborators (dock area, dock container, dock widget, the
      application) are not part of this file of the library: what they
      answer when the tab asks is collected in the record [World].
    - Calls made on collaborators, signals and base-class calls are
      recorded, in program order, in a trace of [Effect]s. *)

From Stdlib Require Import ZArith List Bool String Lia.
Import ListNotations.
Local Open Scope Z_scope.

(** ** Qt value types *)

Record QPoint : Type := mkQPoint { px : Z; py : Z }.

Record QSize : Type := mkQSize { width : Z; height : Z }.

(** [QRect] keeps its two corners, both inclusive, as Qt does. *)
Record QRect : Type := mkQRect { x1 : Z; y1 : Z; x2 : Z; y2 : Z }.

Module QPointOps.

(** [QPoint()] *)
Definition null : QPoint := mkQPoint 0 0.

(** [QPoint::isNull()]: both coordinates are 0. *)
Definition isNull (p : QPoint) : bool := (px p =? 0) && (py p =? 0).

(** [operator-(QPoint, QPoint)] *)
Definition sub (p q : QPoint) : QPoint := mkQPoint (px p - px q) (py p - py q).

(** [QPoint::setY] *)
Definition setY (p : QPoint) (y : Z) : QPoint := mkQPoint (px p) y.

(** [QPoint::manhattanLength()] *)
Definition manhattanLength (p : QPoint) : Z := Z.abs (px p) + Z.abs (py p).

End QPointOps.

(** [QRect::contains(const QPoint&)] (the non-proper test), with the
    normalisation of inverted rectangles that Qt performs. *)
Definition QRect_contains (r : QRect) (p : QPoint) : bool :=
  let '(l, rr) := if x2 r <? x1 r - 1 then (x2 r, x1 r) else (x1 r, x2 r) in
  let '(t, b) := if y2 r <? y1 r - 1 then (y2 r, y1 r) else (y1 r, y2 r) in
  negb ((px p <? l) || (rr <? px p)) && negb ((py p <? t) || (b <? py p)).

(** [Qt::MouseButton] values, usable as bits of [Qt::MouseButtons]. *)
Definition NoButton : Z := 0.
Definition LeftButton : Z := 1.
Definition RightButton : Z := 2.
Definition MiddleButton : Z := 4.

(** What the handlers read from a [QMouseEvent]. *)
Record QMouseEvent : Type := mkQMouseEvent {
  button : Z;          (* the button that caused the event *)
  buttons : Z;         (* the buttons held down, as a bit mask *)
  pos : QPoint;        (* position relative to the tab *)
  globalPos : QPoint   (* position on the screen *)
}.

(** ** Addresses of the collaborating objects *)

Definition PanelId : Type := nat.      (* CDockWidget* *)
Definition AreaId : Type := nat.       (* CDockAreaWidget* *)
Definition FloatingId : Type := nat.   (* CFloatingDockContainer* *)

Inductive QIcon : Type :=
| NullIcon
| IconOf (n : nat).

(** ** The dragging states *)

Inductive eDragState : Type :=
| DraggingInactive
| DraggingMousePressed
| DraggingTab
| DraggingFloatingWidget.

Definition eDragState_eqb (a b : eDragState) : bool :=
  match a, b with
  | DraggingInactive, DraggingInactive => true
  | DraggingMousePressed, DraggingMousePressed => true
  | DraggingTab, DraggingTab => true
  | DraggingFloatingWidget, DraggingFloatingWidget => true
  | _, _ => false
  end.

(** ** Private data of the tab *)

Record DockWidgetTabPrivate : Type := mkPrivate {
  DockWidget : PanelId;
  DragStartMousePosition : QPoint;
  IsActiveTab : bool;
  DockArea : option AreaId;
  DragState : eDragState;
  FloatingWidget : option FloatingId;
  Icon : QIcon
}.

Definition set_DragStartMousePosition (p : QPoint) (d : DockWidgetTabPrivate) :=
  mkPrivate (DockWidget d) p (IsActiveTab d) (DockArea d) (DragState d)
            (FloatingWidget d) (Icon d).

Definition set_IsActiveTab (b : bool) (d : DockWidgetTabPrivate) :=
  mkPrivate (DockWidget d) (DragStartMousePosition d) b (DockArea d) (DragState d)
            (FloatingWidget d) (Icon d).

Definition set_DockArea (a : option AreaId) (d : DockWidgetTabPrivate) :=
  mkPrivate (DockWidget d) (DragStartMousePosition d) (IsActiveTab d) a (DragState d)
            (FloatingWidget d) (Icon d).

Definition set_DragState (st : eDragState) (d : DockWidgetTabPrivate) :=
  mkPrivate (DockWidget d) (DragStartMousePosition d) (IsActiveTab d) (DockArea d) st
            (FloatingWidget d) (Icon d).

Definition set_FloatingWidget (f : option FloatingId) (d : DockWidgetTabPrivate) :=
  mkPrivate (DockWidget d) (DragStartMousePosition d) (IsActiveTab d) (DockArea d)
            (DragState d) f (Icon d).

Definition set_Icon (i : QIcon) (d : DockWidgetTabPrivate) :=
  mkPrivate (DockWidget d) (DragStartMousePosition d) (IsActiveTab d) (DockArea d)
            (DragState d) (FloatingWidget d) i.

(** ** The collaborators, as seen from the tab

    One [World] is a snapshot of what the collaborators answer while one
    event is handled; successive events may see different worlds. *)

Record World : Type := mkWorld {
  (* DockWidget->dockContainer() *)
  isFloating : bool;
  dockAreaCount : Z;
  visibleDockAreaCount : Z;
  (* DockWidget->dockAreaWidget() *)
  dockAreaWidget : AreaId;
  (* DockWidget->features().testFlag(CDockWidget::DockWidgetMovable) *)
  movable : bool;
  (* CDockAreaWidget, by address *)
  count : AreaId -> Z;
  size : AreaId -> QSize;
  titleAreaGeometry : AreaId -> QRect;
  mapFromGlobal : AreaId -> QPoint -> QPoint;
  tabIndex : AreaId -> PanelId -> Z;
  (* indexOfContentByTitlePos(pos, this): -1 stands for no tab *)
  indexOfContentByTitlePos : AreaId -> QPoint -> Z;
  (* QApplication::startDragDistance() *)
  startDragDistance : Z;
  (* QWidget::mapToParent of the tab itself *)
  mapToParent : QPoint -> QPoint;
  (* the address the next [new CFloatingDockContainer] returns *)
  newFloating : FloatingId
}.

(** ** Observable effects *)

Inductive Widget : Type :=
| TheTab
| TitleLabel
| IconLabel.

Inductive FloatingSource : Type :=
| OfDockWidget (p : PanelId)    (* CFloatingDockContainer(CDockWidget* ) *)
| OfDockArea (a : AreaId).      (* CFloatingDockContainer(CDockAreaWidget* ) *)

Inductive DockWidgetAreas : Type :=
| OuterDockAreas.

Inductive Effect : Type :=
| qDebug (msg : string)
| accept
| QFrame_mousePressEvent
| QFrame_mouseReleaseEvent
| QFrame_mouseMoveEvent
| clicked                                          (* emit clicked() *)
| activeTabChanged                                 (* emit activeTabChanged() *)
| reorderDockWidget (a : AreaId) (fromIndex toIndex : Z)
| new_CFloatingDockContainer (f : FloatingId) (src : FloatingSource)
| startFloating_at (f : FloatingId) (p : QPoint) (sz : QSize)
| moveFloating (f : FloatingId)
| setAllowedAreas (areas : DockWidgetAreas)
| move (p : QPoint)
| raise
| unpolish (w : Widget)
| polish (w : Widget)
| update
| setPixmap (i : QIcon) (sz : QSize)
| setVisible (w : Widget) (b : bool)
| setText (w : Widget) (titleOf : PanelId).

Definition is_clicked (e : Effect) : bool :=
  match e with clicked => true | _ => false end.

Definition is_activeTabChanged (e : Effect) : bool :=
  match e with activeTabChanged => true | _ => false end.

Definition Widget_eqb (a b : Widget) : bool :=
  match a, b with
  | TheTab, TheTab | TitleLabel, TitleLabel | IconLabel, IconLabel => true
  | _, _ => false
  end.

Definition is_polish (w : Widget) (e : Effect) : bool :=
  match e with polish w' => Widget_eqb w w' | _ => false end.

Definition is_new_floating (e : Effect) : bool :=
  match e with new_CFloatingDockContainer _ _ => true | _ => false end.

Definition is_qDebug (e : Effect) : bool :=
  match e with qDebug _ => true | _ => false end.

(** The trace without its diagnostic output. *)
Definition calls (t : list Effect) : list Effect :=
  filter (fun e => negb (is_qDebug e)) t.

Definition occurrences (f : Effect -> bool) (t : list Effect) : nat :=
  List.length (filter f t).

(** ** The handler monad: private data, trace, undefined behaviour *)

Definition M (A : Type) : Type :=
  DockWidgetTabPrivate -> option (A * DockWidgetTabPrivate * list Effect).

Definition ret {A} (a : A) : M A := fun d => Some (a, d, []).

Definition bind {A B} (c : M A) (k : A -> M B) : M B :=
  fun d =>
    match c d with
    | None => None
    | Some (a, d1, t1) =>
        match k a d1 with
        | None => None
        | Some (b, d2, t2) => Some (b, d2, t1 ++ t2)
        end
    end.

Declare Scope tab_scope.
Delimit Scope tab_scope with tab.
Notation "x <- c ;; k" := (bind c (fun x => k))
  (at level 61, c at next level, right associativity) : tab_scope.
Notation "c ;; k" := (bind c (fun _ => k))
  (at level 61, right associativity) : tab_scope.
Local Open Scope tab_scope.

Definition gets {A} (f : DockWidgetTabPrivate -> A) : M A :=
  fun d => Some (f d, d, []).

Definition modify (f : DockWidgetTabPrivate -> DockWidgetTabPrivate) : M unit :=
  fun d => Some (tt, f d, []).

Definition call (e : Effect) : M unit := fun d => Some (tt, d, [e]).

(** Dereferencing a pointer field; a null pointer is undefined behaviour. *)
Definition deref {A} (f : DockWidgetTabPrivate -> option A) : M A :=
  fun d => match f d with
           | Some a => Some (a, d, [])
           | None => None
           end.

Definition when (b : bool) (c : M unit) : M unit := if b then c else ret tt.

(** ** DockWidgetTabPrivate *)

(** [isDraggingState] *)
Definition isDraggingState (dragState : eDragState) : M bool :=
  gets (fun d => eDragState_eqb (DragState d) dragState).

(** [titleAreaGeometryContains] *)
Definition titleAreaGeometryContains (w : World) (GlobalPos : QPoint) : M bool :=
  a <- deref DockArea ;;
  ret (QRect_contains (titleAreaGeometry w a) (mapFromGlobal w a GlobalPos)).

(** [createLayout] *)
Definition createLayout : M unit :=
  call (setVisible IconLabel false) ;;
  call (setVisible TitleLabel true) ;;
  p <- gets DockWidget ;;
  call (setText TitleLabel p).

(** [moveTab] *)
Definition moveTab (w : World) (ev : QMouseEvent) : M unit :=
  call accept ;;
  start <- gets DragStartMousePosition ;;
  let moveToPos := QPointOps.sub (mapToParent w (pos ev)) start in
  let moveToPos := QPointOps.setY moveToPos 0 in
  call (move moveToPos) ;;
  call raise.

(** The test that opens [startFloating]: the dock widget is the last one
    inside an already floating container. *)
Definition lastInFloating (w : World) : bool :=
  isFloating w
  && (visibleDockAreaCount w =? 1)
  && (count w (dockAreaWidget w) =? 1).

(** [startFloating] *)
Definition startFloating (w : World) : M bool :=
  call (qDebug "isFloating ") ;;
  call (qDebug "areaCount ") ;;
  call (qDebug "widgetCount ") ;;
  if lastInFloating w then ret false
  else
    call (qDebug "startFloating") ;;
    modify (set_DragState DraggingFloatingWidget) ;;
    a <- deref DockArea ;;
    let Size := size w a in
    f <- (if 1 <? count w a
          then
            p <- gets DockWidget ;;
            call (new_CFloatingDockContainer (newFloating w) (OfDockWidget p)) ;;
            ret (newFloating w)
          else
            call (qDebug "DockWidgetTabPrivate::startFloating DockArea") ;;
            call (new_CFloatingDockContainer (newFloating w) (OfDockArea a)) ;;
            ret (newFloating w)) ;;
    start <- gets DragStartMousePosition ;;
    call (startFloating_at f start Size) ;;
    call (setAllowedAreas OuterDockAreas) ;;
    modify (set_FloatingWidget (Some f)) ;;
    ret true.

(** ** CDockWidgetTab *)

(** The private data as the constructor leaves them. *)
Definition initial (p : PanelId) : DockWidgetTabPrivate :=
  mkPrivate p QPointOps.null false None DraggingInactive None NullIcon.

(** [mousePressEvent] *)
Definition mousePressEvent (ev : QMouseEvent) : M unit :=
  if button ev =? LeftButton
  then
    call (qDebug "CDockWidgetTab::mousePressEvent") ;;
    call accept ;;
    modify (set_DragStartMousePosition (pos ev)) ;;
    modify (set_DragState DraggingMousePressed)
  else call QFrame_mousePressEvent.

(** [mouseReleaseEvent] *)
Definition mouseReleaseEvent (w : World) (ev : QMouseEvent) : M unit :=
  call (qDebug "CDockWidgetTab::mouseReleaseEvent") ;;
  dragging <- isDraggingState DraggingTab ;;
  area <- gets DockArea ;;
  match dragging, area with
  | true, Some a =>
      let pos := mapFromGlobal w a (globalPos ev) in
      p <- gets DockWidget ;;
      let fromIndex := tabIndex w a p in
      let toIndex := indexOfContentByTitlePos w a pos in
      let toIndex := if -1 =? toIndex then count w a - 1 else toIndex in
      call (qDebug "Move tab from ") ;;
      call (reorderDockWidget a fromIndex toIndex)
  | _, _ => ret tt
  end ;;
  start <- gets DragStartMousePosition ;;
  when (negb (QPointOps.isNull start)) (call clicked) ;;
  modify (set_DragStartMousePosition QPointOps.null) ;;
  modify (set_DragState DraggingInactive) ;;
  call QFrame_mouseReleaseEvent.

(** [mouseMoveEvent] *)
Definition mouseMoveEvent (w : World) (ev : QMouseEvent) : M unit :=
  inactive <- isDraggingState DraggingInactive ;;
  if (Z.land (buttons ev) LeftButton =? 0) || inactive
  then
    modify (set_DragState DraggingInactive) ;;
    call QFrame_mouseMoveEvent
  else
    floating <- isDraggingState DraggingFloatingWidget ;;
    if floating
    then
      f <- deref FloatingWidget ;;
      call (moveFloating f) ;;
      call QFrame_mouseMoveEvent
    else
      tab <- isDraggingState DraggingTab ;;
      when tab (moveTab w ev) ;;
      MouseInsideTitleArea <- titleAreaGeometryContains w (globalPos ev) ;;
      if negb MouseInsideTitleArea
      then
        when (movable w) (startFloating w ;; ret tt)
      else
        a <- deref DockArea ;;
        start <- gets DragStartMousePosition ;;
        if (1 <? count w a)
           && (startDragDistance w
               <=? QPointOps.manhattanLength (QPointOps.sub (pos ev) start))
        then modify (set_DragState DraggingTab)
        else call QFrame_mouseMoveEvent.

(** [isActiveTab] *)
Definition isActiveTab : M bool := gets IsActiveTab.

(** [setActiveTab] *)
Definition setActiveTab (active : bool) : M unit :=
  current <- gets IsActiveTab ;;
  if Bool.eqb current active then ret tt
  else
    modify (set_IsActiveTab active) ;;
    call (unpolish TheTab) ;;
    call (polish TheTab) ;;
    call (unpolish TitleLabel) ;;
    call (polish TitleLabel) ;;
    call update ;;
    call activeTabChanged.

(** [setDockAreaWidget] *)
Definition setDockAreaWidget (a : option AreaId) : M unit :=
  modify (set_DockArea a).

(** [dockAreaWidget] of the tab *)
Definition tab_dockAreaWidget : M (option AreaId) := gets DockArea.

(** [setIcon] *)
Definition setIcon (i : QIcon) : M unit :=
  modify (set_Icon i) ;;
  call (setPixmap i (mkQSize 16 16)) ;;
  call (setVisible IconLabel true).

(** [icon] *)
Definition icon : M QIcon := gets Icon.

(** [CDockWidgetTab::CDockWidgetTab] *)
Definition construct (p : PanelId) : option (unit * DockWidgetTabPrivate * list Effect) :=
  createLayout (initial p).

(** ** Sequences of calls on one tab *)

Inductive Request : Type :=
| MousePress (ev : QMouseEvent)
| MouseRelease (w : World) (ev : QMouseEvent)
| MouseMove (w : World) (ev : QMouseEvent)
| SetActiveTab (active : bool)
| SetDockAreaWidget (a : option AreaId)
| SetIcon (i : QIcon).

Definition handle (r : Request) : M unit :=
  match r with
  | MousePress ev => mousePressEvent ev
  | MouseRelease w ev => mouseReleaseEvent w ev
  | MouseMove w ev => mouseMoveEvent w ev
  | SetActiveTab active => setActiveTab active
  | SetDockAreaWidget a => setDockAreaWidget a
  | SetIcon i => setIcon i
  end.

(** Handles the requests in order; undefined as soon as one of them is. *)
Fixpoint handle_all (rs : list Request) : M unit :=
  match rs with
  | [] => ret tt
  | r :: rs' => handle r ;; handle_all rs'
  end.

(** The private data a tab can be in: those of a freshly constructed
    tab, and those left by a handler that ran to completion. *)
Inductive reachable : DockWidgetTabPrivate -> Prop :=
| reachable_initial p : reachable (initial p)
| reachable_handle d r d' t :
    reachable d -> handle r d = Some (tt, d', t) -> reachable d'.

(** The invariant of the floating drag: the floating window reference is
    set whenever the drag state is DraggingFloatingWidget. *)
Definition floating_widget_set (d : DockWidgetTabPrivate) : Prop :=
  DragState d = DraggingFloatingWidget -> exists f, FloatingWidget d = Some f.

(** ** The floating window constructors on the layout *)

Inductive FloatingContent : Type :=
| HoldsPanel (p : PanelId)
| HoldsArea (a : AreaId).

Record Layout : Type := mkLayout {
  panels : AreaId -> list PanelId;              (* the tabs of each area *)
  windows : list (FloatingId * FloatingContent) (* the floating windows *)
}.

(** Modelled from the spec: the two constructors of the floating window
    ([CFloatingDockContainer], implemented in FloatingDockContainer.cpp).
    Built
    from a panel, the window wraps only this panel, which leaves its area
    and its siblings behind; built from an area, the window wraps the area
    object, which moves as it is, with its panels. *)
Definition CFloatingDockContainer (f : FloatingId) (src : FloatingSource)
    (L : Layout) : Layout :=
  match src with
  | OfDockWidget p =>
      mkLayout (fun a => remove Nat.eq_dec p (panels L a))
               ((f, HoldsPanel p) :: windows L)
  | OfDockArea a =>
      mkLayout (panels L) ((f, HoldsArea a) :: windows L)
  end.

(** The layout after the constructor calls of a trace. *)
Fixpoint layout_after (t : list Effect) (L : Layout) : Layout :=
  match t with
  | [] => L
  | new_CFloatingDockContainer f src :: t' =>
      layout_after t' (CFloatingDockContainer f src L)
  | _ :: t' => layout_after t' L
  end.

Definition is_reorder (e : Effect) : bool :=
  match e with reorderDockWidget _ _ _ => true | _ => false end.

(** ** Sample worlds, events and tabs *)

(** A docked panel in an area [0] of two tabs whose title area is the
    strip from (0,0) to (299,20); the hit test finds no tab. *)
Definition docked_world : World :=
  mkWorld false 1 1 0%nat true
          (fun _ => 2) (fun _ => mkQSize 300 200)
          (fun _ => mkQRect 0 0 299 20) (fun _ p => p)
          (fun _ _ => 0) (fun _ _ => -1)
          4 (fun p => p) 7%nat.

Definition press_at_origin : QMouseEvent :=
  mkQMouseEvent LeftButton LeftButton (mkQPoint 0 0) (mkQPoint 100 50).

Definition press_at_5_3 : QMouseEvent :=
  mkQMouseEvent LeftButton LeftButton (mkQPoint 5 3) (mkQPoint 5 3).

Definition press_right : QMouseEvent :=
  mkQMouseEvent RightButton RightButton (mkQPoint 5 3) (mkQPoint 5 3).

Definition release_left : QMouseEvent :=
  mkQMouseEvent LeftButton NoButton (mkQPoint 0 0) (mkQPoint 100 50).

Definition move_far_released : QMouseEvent :=
  mkQMouseEvent NoButton NoButton (mkQPoint 40 3) (mkQPoint 40 3).

Definition move_far_held : QMouseEvent :=
  mkQMouseEvent NoButton LeftButton (mkQPoint 40 3) (mkQPoint 40 3).

Definition move_out_held : QMouseEvent :=
  mkQMouseEvent NoButton LeftButton (mkQPoint 40 100) (mkQPoint 40 100).

(** The same area with a single tab. *)
Definition single_tab_world : World :=
  mkWorld false 1 1 0%nat true
          (fun _ => 1) (fun _ => mkQSize 300 200)
          (fun _ => mkQRect 0 0 299 20) (fun _ p => p)
          (fun _ _ => 0) (fun _ _ => -1)
          4 (fun p => p) 7%nat.

(** The single tab of the single area of a floating window. *)
Definition floating_single_world : World :=
  mkWorld true 1 1 0%nat true
          (fun _ => 1) (fun _ => mkQSize 300 200)
          (fun _ => mkQRect 0 0 299 20) (fun _ p => p)
          (fun _ _ => 0) (fun _ _ => -1)
          4 (fun p => p) 7%nat.

(** The tab of panel 0, attached to area 0, after [press_at_5_3]. *)
Definition pressed_tab : DockWidgetTabPrivate :=
  mkPrivate 0%nat (mkQPoint 5 3) false (Some 0%nat) DraggingMousePressed None NullIcon.

(** The same tab once [move_far_held] has started the tab drag. *)
Definition dragged_tab : DockWidgetTabPrivate :=
  set_DragState DraggingTab pressed_tab.

(** The same tab once [move_out_held] has undocked it. *)
Definition floating_tab : DockWidgetTabPrivate :=
  set_FloatingWidget (Some 7%nat) (set_DragState DraggingFloatingWidget pressed_tab).

Definition two_tab_layout : Layout :=
  mkLayout (fun a => match a with O => [0; 1]%nat | _ => [] end) [].

(** The trace of the [startFloating] that leads to [floating_tab]. *)
Definition floating_trace : list Effect :=
  [qDebug "isFloating "; qDebug "areaCount "; qDebug "widgetCount ";
   qDebug "startFloating";
   new_CFloatingDockContainer 7%nat (OfDockWidget 0%nat);
   startFloating_at 7%nat (mkQPoint 5 3) (mkQSize 300 200);
   setAllowedAreas OuterDockAreas].

(** [dockWidget] *)
Definition dockWidget : M PanelId := gets DockWidget.

(** ** Measures on requests and traces *)

(** The left button is among the buttons held during the event. *)
Definition left_held (ev : QMouseEvent) : bool :=
  negb (Z.land (buttons ev) LeftButton =? 0).

Definition is_left_press (r : Request) : bool :=
  match r with MousePress ev => button ev =? LeftButton | _ => false end.

Definition left_presses (rs : list Request) : nat :=
  List.length (filter is_left_press rs).

Definition sets_area (r : Request) : bool :=
  match r with SetDockAreaWidget _ => true | _ => false end.

Definition sets_icon (r : Request) : bool :=
  match r with SetIcon _ => true | _ => false end.

Definition sets_active (r : Request) : bool :=
  match r with SetActiveTab _ => true | _ => false end.

(** The requests of a list of mouse moves, each with its world. *)
Definition moves (ms : list (World * QMouseEvent)) : list Request :=
  map (fun m => MouseMove (fst m) (snd m)) ms.

(** 1 when a press position is recorded, that is, when the next release
    will emit [clicked]; 0 otherwise. *)
Definition pending_click (d : DockWidgetTabPrivate) : nat :=
  if QPointOps.isNull (DragStartMousePosition d) then 0%nat else 1%nat.

(** How often a flag that starts as [current] changes its value when the
    values [bs] are assigned to it in turn. *)
Fixpoint flips (current : bool) (bs : list bool) : nat :=
  match bs with
  | [] => 0%nat
  | b :: bs' => ((if Bool.eqb current b then 0 else 1) + flips b bs')%nat
  end.

Definition is_icon_shown (e : Effect) : bool :=
  match e with setVisible IconLabel true => true | _ => false end.

(** The pointer of a mouse event is inside the title area of area [a]. *)
Definition inside_title_area (w : World) (a : AreaId) (ev : QMouseEvent) : bool :=
  QRect_contains (titleAreaGeometry w a) (mapFromGlobal w a (globalPos ev)).

(** ** More sample data *)

Definition move_near_held : QMouseEvent :=
  mkQMouseEvent NoButton LeftButton (mkQPoint 6 3) (mkQPoint 6 3).

(** A docked panel that may not be moved. *)
Definition fixed_world : World :=
  mkWorld false 1 1 0%nat false
          (fun _ => 2) (fun _ => mkQSize 300 200)
          (fun _ => mkQRect 0 0 299 20) (fun _ p => p)
          (fun _ _ => 0) (fun _ _ => -1)
          4 (fun p => p) 7%nat.

(** A tab in the MousePressed state that was never attached to an area. *)
Definition detached_pressed_tab : DockWidgetTabPrivate :=
  set_DockArea None pressed_tab.

(** The trace of the [startFloating] that undocks the only tab of an
    area, with its area. *)
Definition floating_area_trace : list Effect :=
  [qDebug "isFloating "; qDebug "areaCount "; qDebug "widgetCount ";
   qDebug "startFloating";
   qDebug "DockWidgetTabPrivate::startFloating DockArea";
   new_CFloatingDockContainer 7%nat (OfDockArea 0%nat);
   startFloating_at 7%nat (mkQPoint 5 3) (mkQSize 300 200);
   setAllowedAreas OuterDockAreas].

(** Area 0 with panel 0 as its only tab. *)
Definition one_tab_layout : Layout :=
  mkLayout (fun a => match a with O => [0]%nat | _ => [] end) [].

(** An area that holds no tab when the release arrives. *)
Definition empty_area_world : World :=
  mkWorld false 1 1 0%nat true
          (fun _ => 0) (fun _ => mkQSize 300 200)
          (fun _ => mkQRect 0 0 299 20) (fun _ p => p)
          (fun _ _ => 0) (fun _ _ => -1)
          4 (fun p => p) 7%nat.

(** * Properties *)

Ltac run :=
  cbv [mousePressEvent mouseReleaseEvent mouseMoveEvent setActiveTab
       setDockAreaWidget setIcon startFloating moveTab
       titleAreaGeometryContains isDraggingState handle
       bind ret gets modify call deref when].

Lemma mousePressEvent_left ev d :
  button ev = LeftButton ->
  mousePressEvent ev d =
    Some (tt, set_DragState DraggingMousePressed
                (set_DragStartMousePosition (pos ev) d),
          [qDebug "CDockWidgetTab::mousePressEvent"; accept]).
Proof.
  intros Hb. run. rewrite Hb. reflexivity.
Qed.

Lemma mousePressEvent_other ev d :
  button ev <> LeftButton ->
  mousePressEvent ev d = Some (tt, d, [QFrame_mousePressEvent]).
Proof.
  intros Hb. run. destruct (Z.eqb_spec (button ev) LeftButton) as [E | _].
  - contradiction.
  - reflexivity.
Qed.
Lemma mouseReleaseEvent_runs w ev d :
  exists t,
    mouseReleaseEvent w ev d =
      Some (tt, set_DragState DraggingInactive
                  (set_DragStartMousePosition QPointOps.null d), t)
    /\ occurrences is_clicked t =
         (if QPointOps.isNull (DragStartMousePosition d) then 0 else 1)%nat
    /\ filter is_reorder t =
         match DragState d, DockArea d with
         | DraggingTab, Some a =>
             let hit := indexOfContentByTitlePos w a (mapFromGlobal w a (globalPos ev)) in
             [reorderDockWidget a (tabIndex w a (DockWidget d))
                (if -1 =? hit then count w a - 1 else hit)]
         | _, _ => []
         end.
Proof.
  run.
  destruct d as [p start act area st fl ic]; simpl.
  destruct st, area as [a|]; simpl;
    destruct (QPointOps.isNull start); simpl;
      (eexists; split; [reflexivity | split; reflexivity]).
Qed.
Lemma startFloating_declined w d :
  lastInFloating w = true ->
  startFloating w d =
    Some (false, d,
          [qDebug "isFloating "; qDebug "areaCount "; qDebug "widgetCount "]).
Proof.
  intros H. run. rewrite H. reflexivity.
Qed.

Lemma startFloating_started w d a :
  lastInFloating w = false ->
  DockArea d = Some a ->
  exists t,
    startFloating w d =
      Some (true,
            set_FloatingWidget (Some (newFloating w))
              (set_DragState DraggingFloatingWidget d), t)
    /\ calls t =
         [new_CFloatingDockContainer (newFloating w)
            (if 1 <? count w a then OfDockWidget (DockWidget d) else OfDockArea a);
          startFloating_at (newFloating w) (DragStartMousePosition d) (size w a);
          setAllowedAreas OuterDockAreas].
Proof.
  intros H Ha. run. rewrite H. simpl. rewrite Ha.
  destruct (1 <? count w a); simpl; eexists; split; reflexivity.
Qed.

Lemma startFloating_no_area w d :
  lastInFloating w = false ->
  DockArea d = None ->
  startFloating w d = None.
Proof.
  intros H Ha. run. rewrite H. simpl. rewrite Ha. reflexivity.
Qed.

Lemma lastInFloating_true w :
  lastInFloating w = true <->
  isFloating w = true /\ visibleDockAreaCount w = 1
  /\ count w (dockAreaWidget w) = 1.
Proof.
  unfold lastInFloating. rewrite !andb_true_iff, !Z.eqb_eq. tauto.
Qed.

Lemma mouseMoveEvent_released w ev d :
  Z.land (buttons ev) LeftButton = 0 \/ DragState d = DraggingInactive ->
  mouseMoveEvent w ev d =
    Some (tt, set_DragState DraggingInactive d, [QFrame_mouseMoveEvent]).
Proof.
  intros H. run.
  destruct H as [H | H]; rewrite H; simpl.
  - reflexivity.
  - rewrite orb_true_r. reflexivity.
Qed.
Ltac atomic_test b :=
  lazymatch b with
  | context [match _ with _ => _ end] => fail
  | _ => idtac
  end.

Ltac case_split H :=
  repeat match type of H with
    | context [if ?b then _ else _] =>
        atomic_test b; destruct b eqn:?; simpl in H
    | context [match ?x with _ => _ end] =>
        atomic_test x; destruct x eqn:?; simpl in H
    end.

(** What a mouse move leaves untouched and what it never does. *)
Lemma mouseMoveEvent_frame w ev d d' t :
  mouseMoveEvent w ev d = Some (tt, d', t) ->
  DragStartMousePosition d' = DragStartMousePosition d
  /\ DockArea d' = DockArea d
  /\ occurrences is_clicked t = 0%nat
  /\ (DragState d' = DraggingFloatingWidget ->
      (DragState d = DraggingFloatingWidget /\ FloatingWidget d' = FloatingWidget d)
      \/ FloatingWidget d' = Some (newFloating w)).
Proof.
  destruct d as [p start act area st fl ic].
  run. unfold lastInFloating. simpl. intros H.
  destruct st, area, fl; simpl in H; case_split H;
    try discriminate; inversion H; subst; simpl;
    repeat split; try reflexivity; try discriminate; auto.
Qed.

Lemma occurrences_app f (t1 t2 : list Effect) :
  occurrences f (t1 ++ t2) = (occurrences f t1 + occurrences f t2)%nat.
Proof.
  unfold occurrences. rewrite filter_app. apply length_app.
Qed.

(** Mouse moves, whatever their number, keep the recorded press position
    and emit no [clicked]. *)
Lemma moves_keep_press_position (ms : list (World * QMouseEvent)) :
  forall d d' t,
    handle_all (map (fun m => MouseMove (fst m) (snd m)) ms) d = Some (tt, d', t) ->
    DragStartMousePosition d' = DragStartMousePosition d
    /\ occurrences is_clicked t = 0%nat.
Proof.
  induction ms as [| [w ev] ms IH]; simpl; intros d d' t H.
  - inversion H; subst. split; reflexivity.
  - unfold bind in H.
    destruct (mouseMoveEvent w ev d) as [[[[] d1] t1] |] eqn:E1; [| discriminate].
    destruct (handle_all _ d1) as [[[[] d2] t2] |] eqn:E2; [| discriminate].
    inversion H; subst.
    apply mouseMoveEvent_frame in E1. destruct E1 as (Hs & _ & Hc & _).
    apply IH in E2. destruct E2 as (Hs2 & Hc2).
    split.
    + congruence.
    + rewrite occurrences_app, Hc, Hc2. reflexivity.
Qed.

(** A left press, any mouse moves, then a release: the release emits
    [clicked] once, unless the press was at the tab's origin, and leaves
    the tab inactive. *)
Lemma release_after_press evp (ms : list (World * QMouseEvent)) w evr d d1 t1 :
  button evp = LeftButton ->
  handle_all (MousePress evp :: map (fun m => MouseMove (fst m) (snd m)) ms) d
    = Some (tt, d1, t1) ->
  exists d2 t2,
    mouseReleaseEvent w evr d1 = Some (tt, d2, t2)
    /\ DragState d2 = DraggingInactive
    /\ occurrences is_clicked t1 = 0%nat
    /\ occurrences is_clicked t2 =
         (if QPointOps.isNull (pos evp) then 0 else 1)%nat.
Proof.
  intros Hb H. simpl in H. unfold bind in H.
  rewrite (mousePressEvent_left evp d Hb) in H.
  destruct (handle_all _ _) as [[[[] d'] t'] |] eqn:E; [| discriminate].
  inversion H; subst. clear H.
  apply moves_keep_press_position in E. destruct E as (Hs & Hc).
  destruct (mouseReleaseEvent_runs w evr d1) as (t2 & Hr & Hclick & _).
  exists (set_DragState DraggingInactive
            (set_DragStartMousePosition QPointOps.null d1)), t2.
  split; [exact Hr |]. split; [reflexivity |]. split.
  - simpl. exact Hc.
  - rewrite Hclick, Hs. reflexivity.
Qed.

(** C1: a left-button press followed by a release should emit "clicked"
    exactly once. At a press on the tab's local origin (0,0), with no
    mouse move in between, the handlers run to completion and the drag
    state is back to inactive, but the trace holds no "clicked". *)
Theorem press_at_origin_release_emits_no_click :
  exists d' t,
    handle_all [MousePress press_at_origin; MouseRelease docked_world release_left]
               (initial 0%nat) = Some (tt, d', t)
    /\ DragState d' = DraggingInactive
    /\ occurrences is_clicked t = 0%nat.
Proof.
  eexists. eexists. split; [reflexivity |]. split; reflexivity.
Qed.

(** C8: a left-button press at the tab's local coordinate (0,0) stores
    the null point as press position; the release that follows tests the
    stored position with [isNull] and emits no "clicked". *)
Theorem press_at_origin_never_clicks w evp evr d :
  button evp = LeftButton ->
  pos evp = mkQPoint 0 0 ->
  exists d1 t1 d2 t2,
    mousePressEvent evp d = Some (tt, d1, t1)
    /\ DragStartMousePosition d1 = QPointOps.null
    /\ QPointOps.isNull (DragStartMousePosition d1) = true
    /\ mouseReleaseEvent w evr d1 = Some (tt, d2, t2)
    /\ occurrences is_clicked (t1 ++ t2) = 0%nat.
Proof.
  intros Hb Hp.
  destruct (mouseReleaseEvent_runs w evr
              (set_DragState DraggingMousePressed
                 (set_DragStartMousePosition (pos evp) d))) as (t2 & Hr & Hc & _).
  do 4 eexists.
  split; [apply mousePressEvent_left; exact Hb |].
  split; [simpl; exact Hp |].
  split; [simpl; rewrite Hp; reflexivity |].
  split; [exact Hr |].
  rewrite occurrences_app, Hc. simpl. rewrite Hp. reflexivity.
Qed.

Lemma press_at_origin_never_clicks_witness :
  button press_at_origin = LeftButton
  /\ pos press_at_origin = mkQPoint 0 0
  /\ exists d1 t1 d2 t2,
       mousePressEvent press_at_origin pressed_tab = Some (tt, d1, t1)
       /\ DragStartMousePosition d1 = QPointOps.null
       /\ QPointOps.isNull (DragStartMousePosition d1) = true
       /\ mouseReleaseEvent docked_world release_left d1 = Some (tt, d2, t2)
       /\ occurrences is_clicked (t1 ++ t2) = 0%nat.
Proof.
  split; [reflexivity |]. split; [reflexivity |].
  apply (press_at_origin_never_clicks docked_world press_at_origin release_left
           pressed_tab); reflexivity.
Defined.

(** C10: a mouse press whose button is not the left button is forwarded
    to the default handling of the frame and changes nothing in the
    private data: drag state, press position, active flag, icon and area
    reference are what they were. *)
Theorem mousePressEvent_other_button_frame ev d :
  button ev <> LeftButton ->
  exists d',
    mousePressEvent ev d = Some (tt, d', [QFrame_mousePressEvent])
    /\ d' = d
    /\ DragState d' = DragState d
    /\ DragStartMousePosition d' = DragStartMousePosition d
    /\ IsActiveTab d' = IsActiveTab d
    /\ Icon d' = Icon d
    /\ DockArea d' = DockArea d.
Proof.
  intros Hb. exists d.
  split; [apply mousePressEvent_other; exact Hb |].
  repeat split.
Qed.

Lemma mousePressEvent_other_button_frame_witness :
  button press_right <> LeftButton
  /\ exists d',
       mousePressEvent press_right dragged_tab = Some (tt, d', [QFrame_mousePressEvent])
       /\ d' = dragged_tab
       /\ DragState d' = DragState dragged_tab
       /\ DragStartMousePosition d' = DragStartMousePosition dragged_tab
       /\ IsActiveTab d' = IsActiveTab dragged_tab
       /\ Icon d' = Icon dragged_tab
       /\ DockArea d' = DockArea dragged_tab.
Proof.
  split; [discriminate |].
  apply (mousePressEvent_other_button_frame press_right dragged_tab). discriminate.
Defined.

(** C7: a mouse move received while the left button is not held, or
    while the drag state is inactive, is passed to the default handling
    of the frame and leaves the drag state inactive: the tab is in no
    dragging state afterwards. Nothing else in the private data changes. *)
Theorem mouseMoveEvent_without_button_or_inactive w ev d :
  Z.land (buttons ev) LeftButton = 0 \/ DragState d = DraggingInactive ->
  exists d',
    mouseMoveEvent w ev d = Some (tt, d', [QFrame_mouseMoveEvent])
    /\ d' = set_DragState DraggingInactive d
    /\ DragState d' = DraggingInactive.
Proof.
  intros H. exists (set_DragState DraggingInactive d).
  split; [apply mouseMoveEvent_released; exact H |].
  split; reflexivity.
Qed.

Lemma mouseMoveEvent_without_button_or_inactive_witness :
  (Z.land (buttons move_far_released) LeftButton = 0
   \/ DragState dragged_tab = DraggingInactive)
  /\ exists d',
       mouseMoveEvent docked_world move_far_released dragged_tab
         = Some (tt, d', [QFrame_mouseMoveEvent])
       /\ d' = set_DragState DraggingInactive dragged_tab
       /\ DragState d' = DraggingInactive.
Proof.
  split; [left; reflexivity |].
  apply (mouseMoveEvent_without_button_or_inactive docked_world move_far_released
           dragged_tab).
  left. reflexivity.
Defined.

(** C2: [startFloating] returns false exactly when the panel's container
    is floating, the container has exactly one visible dock area, and the
    area owning the panel holds exactly one tab; when it returns false the
    private data, so the drag state and the floating window reference,
    are unchanged and no floating window is created: only diagnostic
    output was produced. *)
Theorem startFloating_declines_iff w d :
  ((exists d' t, startFloating w d = Some (false, d', t))
   <-> (isFloating w = true
        /\ visibleDockAreaCount w = 1
        /\ count w (dockAreaWidget w) = 1))
  /\ (forall d' t,
        startFloating w d = Some (false, d', t) ->
        d' = d
        /\ DragState d' = DragState d
        /\ FloatingWidget d' = FloatingWidget d
        /\ occurrences is_new_floating t = 0%nat
        /\ calls t = []).
Proof.
  destruct (lastInFloating w) eqn:Hlast.
  - pose proof (startFloating_declined w d Hlast) as Hrun.
    split.
    + split.
      * intros _. apply lastInFloating_true. exact Hlast.
      * intros _. eauto.
    + intros d' t H. rewrite Hrun in H. inversion H; subst.
      repeat split.
  - assert (Hno : forall d' t, startFloating w d <> Some (false, d', t)).
    { intros d' t H. destruct (DockArea d) as [a |] eqn:Ha.
      - destruct (startFloating_started w d a Hlast Ha) as (t' & Hrun & _).
        rewrite Hrun in H. discriminate.
      - rewrite (startFloating_no_area w d Hlast Ha) in H. discriminate. }
    split.
    + split.
      * intros (d' & t & H). exfalso. exact (Hno d' t H).
      * intros H. apply lastInFloating_true in H. congruence.
    + intros d' t H. exfalso. exact (Hno d' t H).
Qed.


(** [startFloating] returns true exactly when it does not decline and the
    tab has an owning area to take the size from. *)
Lemma startFloating_succeeds_iff w d :
  (exists d' t, startFloating w d = Some (true, d', t))
  <-> (lastInFloating w = false /\ exists a, DockArea d = Some a).
Proof.
  split.
  - intros (d' & t & H). destruct (lastInFloating w) eqn:Hlast.
    + rewrite (startFloating_declined w d Hlast) in H. discriminate.
    + destruct (DockArea d) as [a |] eqn:Ha; [eauto |].
      rewrite (startFloating_no_area w d Hlast Ha) in H. discriminate.
  - intros (Hlast & a & Ha).
    destruct (startFloating_started w d a Hlast Ha) as (t & Hrun & _). eauto.
Qed.



(** The two branches of [startFloating] on the sample tab: from an area
    of two tabs the panel alone is undocked, from an area of one tab the
    area itself. *)
Example startFloating_one_of_two_tabs :
  startFloating docked_world pressed_tab = Some (true, floating_tab, floating_trace)
  /\ layout_after floating_trace two_tab_layout
     = mkLayout (fun a' => remove Nat.eq_dec 0%nat (panels two_tab_layout a'))
                [(7%nat, HoldsPanel 0%nat)].
Proof. split; reflexivity. Qed.

Example startFloating_only_tab :
  startFloating single_tab_world pressed_tab
  = Some (true, floating_tab, floating_area_trace)
  /\ layout_after floating_area_trace one_tab_layout
     = mkLayout (panels one_tab_layout) [(7%nat, HoldsArea 0%nat)].
Proof. split; reflexivity. Qed.

(** C4, as amended: on a release in the DraggingTab state with an owning
    area, the area is asked once to reorder, from the index of the panel
    to a destination that is the hit-tested index of the release position
    when the hit test finds a tab, and [count - 1] when it answers -1.
    The handler does not clamp that destination: it lies in
    [0, count - 1] exactly when the hit test answered an index of the
    area, or answered -1 on an area that holds at least one tab. *)
Theorem release_reorders_to_valid_index w ev d a :
  DragState d = DraggingTab ->
  DockArea d = Some a ->
  exists d' t toIndex,
    mouseReleaseEvent w ev d = Some (tt, d', t)
    /\ filter is_reorder t
       = [reorderDockWidget a (tabIndex w a (DockWidget d)) toIndex]
    /\ (indexOfContentByTitlePos w a (mapFromGlobal w a (globalPos ev)) <> -1 ->
        toIndex = indexOfContentByTitlePos w a (mapFromGlobal w a (globalPos ev)))
    /\ (indexOfContentByTitlePos w a (mapFromGlobal w a (globalPos ev)) = -1 ->
        toIndex = count w a - 1)
    /\ (0 <= toIndex <= count w a - 1
        <-> ((indexOfContentByTitlePos w a (mapFromGlobal w a (globalPos ev)) = -1
              /\ 1 <= count w a)
             \/ 0 <= indexOfContentByTitlePos w a
                       (mapFromGlobal w a (globalPos ev)) < count w a)).
Proof.
  intros Hst Ha.
  destruct (mouseReleaseEvent_runs w ev d) as (t & Hrun & _ & Hre).
  rewrite Hst, Ha in Hre. cbv zeta in Hre.
  set (hit := indexOfContentByTitlePos w a (mapFromGlobal w a (globalPos ev))) in *.
  do 3 eexists. split; [exact Hrun |]. split; [exact Hre |].
  destruct (Z.eqb_spec (-1) hit) as [E | E]; repeat split; lia.
Qed.

Lemma release_reorders_to_valid_index_witness :
  DragState dragged_tab = DraggingTab
  /\ DockArea dragged_tab = Some 0%nat
  /\ exists d' t toIndex,
       mouseReleaseEvent docked_world release_left dragged_tab = Some (tt, d', t)
       /\ filter is_reorder t
          = [reorderDockWidget 0%nat
               (tabIndex docked_world 0%nat (DockWidget dragged_tab)) toIndex]
       /\ (indexOfContentByTitlePos docked_world 0%nat
             (mapFromGlobal docked_world 0%nat (globalPos release_left)) <> -1 ->
           toIndex = indexOfContentByTitlePos docked_world 0%nat
                       (mapFromGlobal docked_world 0%nat (globalPos release_left)))
       /\ (indexOfContentByTitlePos docked_world 0%nat
             (mapFromGlobal docked_world 0%nat (globalPos release_left)) = -1 ->
           toIndex = count docked_world 0%nat - 1)
       /\ (0 <= toIndex <= count docked_world 0%nat - 1
           <-> ((indexOfContentByTitlePos docked_world 0%nat
                   (mapFromGlobal docked_world 0%nat (globalPos release_left)) = -1
                 /\ 1 <= count docked_world 0%nat)
                \/ 0 <= indexOfContentByTitlePos docked_world 0%nat
                          (mapFromGlobal docked_world 0%nat (globalPos release_left))
                   < count docked_world 0%nat)).
Proof.
  split; [reflexivity |]. split; [reflexivity |].
  apply (release_reorders_to_valid_index docked_world release_left dragged_tab 0%nat).
  - reflexivity.
  - reflexivity.
Defined.

Lemma reachable_dragged_tab : reachable dragged_tab.
Proof.
  apply (reachable_handle pressed_tab (MouseMove docked_world move_far_held)
           dragged_tab []).
  - apply (reachable_handle _ (MousePress press_at_5_3) _
             [qDebug "CDockWidgetTab::mousePressEvent"; accept]
             (reachable_handle _ (SetDockAreaWidget (Some 0%nat)) _ []
                (reachable_initial 0%nat) eq_refl)).
    reflexivity.
  - reflexivity.
Qed.

(** C4, as stated, fails: [dragged_tab] is in the DraggingTab state with
    area 0 as owning area; released when that area holds no tab and the
    hit test finds none, the handler asks the area to move the tab to
    index -1, which is outside of [0, count - 1]. *)
Lemma release_on_empty_area_reorders_to_minus_one :
  reachable dragged_tab
  /\ DragState dragged_tab = DraggingTab
  /\ DockArea dragged_tab = Some 0%nat
  /\ mouseReleaseEvent empty_area_world release_left dragged_tab
     = Some (tt, set_DockArea (Some 0%nat) (initial 0%nat),
             [qDebug "CDockWidgetTab::mouseReleaseEvent"; qDebug "Move tab from ";
              reorderDockWidget 0%nat 0 (-1); clicked; QFrame_mouseReleaseEvent])
  /\ ~ (0 <= -1 <= count empty_area_world 0%nat - 1).
Proof.
  split; [exact reachable_dragged_tab |].
  split; [reflexivity |]. split; [reflexivity |]. split; [reflexivity |].
  simpl. lia.
Qed.

Lemma setActiveTab_same d :
  setActiveTab (IsActiveTab d) d = Some (tt, d, []).
Proof.
  run. rewrite eqb_reflx. reflexivity.
Qed.

Lemma setActiveTab_changed d active :
  IsActiveTab d <> active ->
  setActiveTab active d =
    Some (tt, set_IsActiveTab active d,
          [unpolish TheTab; polish TheTab; unpolish TitleLabel; polish TitleLabel;
           update; activeTabChanged]).
Proof.
  intros H. run.
  destruct (Bool.eqb (IsActiveTab d) active) eqn:E.
  - apply eqb_prop in E. contradiction.
  - reflexivity.
Qed.

(** C5: [setActiveTab] called with the stored value changes nothing and
    emits nothing; called with the other value it stores the flag,
    unpolishes and polishes the tab and its title label, updates, and
    emits "active changed". Called twice in a row with one value, the
    second call does nothing: both calls together restyle the tab and the
    label and notify once if the value differed from the stored flag, and
    not at all otherwise. *)
Theorem setActiveTab_idempotent d active :
  setActiveTab (IsActiveTab d) d = Some (tt, d, [])
  /\ setActiveTab (negb (IsActiveTab d)) d
     = Some (tt, set_IsActiveTab (negb (IsActiveTab d)) d,
             [unpolish TheTab; polish TheTab; unpolish TitleLabel;
              polish TitleLabel; update; activeTabChanged])
  /\ exists d1 t1,
       setActiveTab active d = Some (tt, d1, t1)
       /\ IsActiveTab d1 = active
       /\ setActiveTab active d1 = Some (tt, d1, [])
       /\ (setActiveTab active ;; setActiveTab active) d = Some (tt, d1, t1)
       /\ occurrences is_activeTabChanged t1
          = (if Bool.eqb (IsActiveTab d) active then 0 else 1)%nat
       /\ occurrences (is_polish TheTab) t1
          = (if Bool.eqb (IsActiveTab d) active then 0 else 1)%nat
       /\ occurrences (is_polish TitleLabel) t1
          = (if Bool.eqb (IsActiveTab d) active then 0 else 1)%nat.
Proof.
  split; [apply setActiveTab_same |].
  split; [apply setActiveTab_changed; destruct (IsActiveTab d); discriminate |].
  destruct (Bool.eqb (IsActiveTab d) active) eqn:E.
  - apply eqb_prop in E. subst active.
    exists d, []. unfold bind. rewrite !setActiveTab_same.
    repeat split.
  - apply eqb_false_iff in E.
    exists (set_IsActiveTab active d). eexists.
    split; [apply setActiveTab_changed; exact E |].
    split; [reflexivity |].
    assert (Hsame : setActiveTab active (set_IsActiveTab active d)
                    = Some (tt, set_IsActiveTab active d, [])).
    { exact (setActiveTab_same (set_IsActiveTab active d)). }
    split; [exact Hsame |].
    split.
    + unfold bind. rewrite (setActiveTab_changed d active E), Hsame. reflexivity.
    + repeat split.
Qed.

Lemma reachable_pressed_tab : reachable pressed_tab.
Proof.
  apply (reachable_handle _ (MousePress press_at_5_3) _
           [qDebug "CDockWidgetTab::mousePressEvent"; accept]
           (reachable_handle _ (SetDockAreaWidget (Some 0%nat)) _ []
              (reachable_initial 0%nat) eq_refl)).
  reflexivity.
Qed.


(** C6, as amended: a mouse move with the left button held, processed in
    the MousePressed state of a tab that has an owning area, takes the
    drag state to DraggingTab exactly when the pointer is inside the title
    area, the owning area holds more than one tab, and the Manhattan
    distance from the recorded press position reaches the drag start
    distance of the application. *)
Theorem pressed_move_starts_tab_drag_iff w ev d a :
  DragState d = DraggingMousePressed ->
  DockArea d = Some a ->
  Z.land (buttons ev) LeftButton <> 0 ->
  exists d' t,
    mouseMoveEvent w ev d = Some (tt, d', t)
    /\ (DragState d' = DraggingTab
        <-> (QRect_contains (titleAreaGeometry w a)
               (mapFromGlobal w a (globalPos ev)) = true
             /\ 1 < count w a
             /\ startDragDistance w
                <= QPointOps.manhattanLength
                     (QPointOps.sub (pos ev) (DragStartMousePosition d)))).
Proof.
  intros Hst Ha Hheld.
  destruct d as [p start act area st fl ic]. simpl in Hst, Ha. subst st area.
  apply Z.eqb_neq in Hheld.
  run. unfold lastInFloating. simpl. rewrite Hheld. simpl.
  destruct (QRect_contains (titleAreaGeometry w a)
              (mapFromGlobal w a (globalPos ev))) eqn:Hin; simpl.
  - destruct (Z.ltb_spec 1 (count w a)) as [Hc | Hc]; simpl.
    + destruct (Z.leb_spec (startDragDistance w)
                  (QPointOps.manhattanLength (QPointOps.sub (pos ev) start)))
        as [Hd | Hd]; simpl.
      * do 2 eexists. split; [reflexivity |]. simpl. tauto.
      * do 2 eexists. split; [reflexivity |]. simpl.
        split; [discriminate | intros (_ & _ & H); lia].
    + do 2 eexists. split; [reflexivity |]. simpl.
      split; [discriminate | intros (_ & H & _); lia].
  - destruct (movable w); simpl.
    + destruct (isFloating w && (visibleDockAreaCount w =? 1)
                && (count w (dockAreaWidget w) =? 1)); simpl.
      * do 2 eexists. split; [reflexivity |]. simpl.
        split; [discriminate | intros (H & _); discriminate].
      * destruct (1 <? count w a); simpl;
          (do 2 eexists; split; [reflexivity |]; simpl;
           split; [discriminate | intros (H & _); discriminate]).
    + do 2 eexists. split; [reflexivity |]. simpl.
      split; [discriminate | intros (H & _); discriminate].
Qed.

Lemma pressed_move_starts_tab_drag_iff_witness :
  DragState pressed_tab = DraggingMousePressed
  /\ DockArea pressed_tab = Some 0%nat
  /\ Z.land (buttons move_far_held) LeftButton <> 0
  /\ exists d' t,
       mouseMoveEvent docked_world move_far_held pressed_tab = Some (tt, d', t)
       /\ (DragState d' = DraggingTab
           <-> (QRect_contains (titleAreaGeometry docked_world 0%nat)
                  (mapFromGlobal docked_world 0%nat (globalPos move_far_held)) = true
                /\ 1 < count docked_world 0%nat
                /\ startDragDistance docked_world
                   <= QPointOps.manhattanLength
                        (QPointOps.sub (pos move_far_held)
                           (DragStartMousePosition pressed_tab)))).
Proof.
  split; [reflexivity |]. split; [reflexivity |]. split; [discriminate |].
  apply (pressed_move_starts_tab_drag_iff docked_world move_far_held pressed_tab 0%nat).
  - reflexivity.
  - reflexivity.
  - discriminate.
Defined.

(** C6, as stated, fails: [pressed_tab] is in the MousePressed state, and
    the move [move_far_released] is inside the title area of an area of
    two tabs, 35 pixels away from the press, with a drag start distance
    of 4; the left button is not held, and the move ends in the inactive
    state, not in DraggingTab. *)
Lemma pressed_move_without_button_is_no_drag :
  reachable pressed_tab
  /\ DragState pressed_tab = DraggingMousePressed
  /\ DockArea pressed_tab = Some 0%nat
  /\ QRect_contains (titleAreaGeometry docked_world 0%nat)
       (mapFromGlobal docked_world 0%nat (globalPos move_far_released)) = true
  /\ 1 < count docked_world 0%nat
  /\ startDragDistance docked_world
     <= QPointOps.manhattanLength
          (QPointOps.sub (pos move_far_released) (DragStartMousePosition pressed_tab))
  /\ exists d' t,
       mouseMoveEvent docked_world move_far_released pressed_tab = Some (tt, d', t)
       /\ DragState d' = DraggingInactive
       /\ DragState d' <> DraggingTab.
Proof.
  split; [exact reachable_pressed_tab |].
  split; [reflexivity |]. split; [reflexivity |]. split; [reflexivity |].
  split; [reflexivity |]. split; [discriminate |].
  do 2 eexists. split; [reflexivity |]. split; [reflexivity | discriminate].
Qed.

Lemma floating_widget_set_initial p : floating_widget_set (initial p).
Proof. intros H. discriminate. Qed.

Lemma floating_widget_set_handle r d d' t :
  floating_widget_set d ->
  handle r d = Some (tt, d', t) ->
  floating_widget_set d'.
Proof.
  intros Hinv H Hst. destruct r as [ev | w ev | w ev | active | a | i]; simpl in H.
  - (* mousePressEvent keeps the state or enters MousePressed *)
    destruct (Z.eq_dec (button ev) LeftButton) as [Hb | Hb].
    + rewrite (mousePressEvent_left ev d Hb) in H. inversion H; subst. discriminate.
    + rewrite (mousePressEvent_other ev d Hb) in H. inversion H; subst. auto.
  - (* mouseReleaseEvent ends inactive *)
    destruct (mouseReleaseEvent_runs w ev d) as (t' & Hrun & _).
    rewrite Hrun in H. inversion H; subst. discriminate.
  - (* mouseMoveEvent enters the state only through startFloating *)
    apply mouseMoveEvent_frame in H. destruct H as (_ & _ & _ & Hfl).
    destruct (Hfl Hst) as [[Hd Hsame] | Hnew].
    + rewrite Hsame. auto.
    + eauto.
  - (* setActiveTab *)
    revert H. run. destruct (Bool.eqb (IsActiveTab d) active);
      intros H; inversion H; subst; auto.
  - (* setDockAreaWidget *)
    revert H. run. intros H. inversion H; subst. auto.
  - (* setIcon *)
    revert H. run. intros H. inversion H; subst. auto.
Qed.

Lemma reachable_floating_widget_set d : reachable d -> floating_widget_set d.
Proof.
  induction 1 as [p | d r d' t _ IH H].
  - apply floating_widget_set_initial.
  - exact (floating_widget_set_handle r d d' t IH H).
Qed.

Lemma reachable_floating_tab : reachable floating_tab.
Proof.
  apply (reachable_handle pressed_tab (MouseMove docked_world move_out_held)
           floating_tab floating_trace).
  - exact reachable_pressed_tab.
  - reflexivity.
Qed.

(** C9: in every state that the handlers of the tab can reach, a drag
    state DraggingFloatingWidget comes with a floating window reference
    that is not null, and so every mouse move handled in that state runs
    to completion: the delegation to the floating window dereferences a
    set reference. *)
Theorem floating_drag_has_floating_widget d :
  reachable d ->
  DragState d = DraggingFloatingWidget ->
  (exists f, FloatingWidget d = Some f)
  /\ FloatingWidget d <> None
  /\ forall w ev, exists d' t, mouseMoveEvent w ev d = Some (tt, d', t).
Proof.
  intros Hr Hst.
  destruct (reachable_floating_widget_set d Hr Hst) as (f & Hf).
  split; [eauto |]. split; [congruence |].
  intros w ev.
  destruct (Z.eq_dec (Z.land (buttons ev) LeftButton) 0) as [Hb | Hb].
  - do 2 eexists. apply mouseMoveEvent_released. left. exact Hb.
  - apply Z.eqb_neq in Hb.
    destruct d as [p start act area st fl ic]. simpl in Hst, Hf. subst st fl.
    run. simpl. rewrite Hb. simpl. eauto.
Qed.

Lemma floating_drag_has_floating_widget_witness :
  reachable floating_tab
  /\ DragState floating_tab = DraggingFloatingWidget
  /\ (exists f, FloatingWidget floating_tab = Some f)
  /\ FloatingWidget floating_tab <> None
  /\ forall w ev, exists d' t, mouseMoveEvent w ev floating_tab = Some (tt, d', t).
Proof.
  split; [exact reachable_floating_tab |]. split; [reflexivity |].
  apply (floating_drag_has_floating_widget floating_tab).
  - exact reachable_floating_tab.
  - reflexivity.
Defined.

(** ** Runs on the sample tabs *)

(** A press inside the tab and a release: one [clicked]. *)
Example click_at_5_3 :
  handle_all [MousePress press_at_5_3; MouseRelease docked_world release_left]
             (initial 0%nat)
  = Some (tt, initial 0%nat,
          [qDebug "CDockWidgetTab::mousePressEvent"; accept;
           qDebug "CDockWidgetTab::mouseReleaseEvent"; clicked;
           QFrame_mouseReleaseEvent]).
Proof. reflexivity. Qed.

(** Dragging the only tab of a docked area out of the title area moves
    the area itself into the floating window. *)
Example drag_out_single_tab :
  exists t,
    mouseMoveEvent single_tab_world move_out_held pressed_tab
    = Some (tt, floating_tab, t)
    /\ calls t =
         [new_CFloatingDockContainer 7%nat (OfDockArea 0%nat);
          startFloating_at 7%nat (mkQPoint 5 3) (mkQSize 300 200);
          setAllowedAreas OuterDockAreas]
    /\ layout_after t two_tab_layout
       = mkLayout (panels two_tab_layout) [(7%nat, HoldsArea 0%nat)].
Proof. eexists. split; [reflexivity |]. split; reflexivity. Qed.

(** Dragging the only tab of a floating window out of its title area
    starts nothing: the tab stays in the MousePressed state. *)
Example drag_out_last_floating_tab :
  mouseMoveEvent floating_single_world move_out_held pressed_tab
  = Some (tt, pressed_tab,
          [qDebug "isFloating "; qDebug "areaCount "; qDebug "widgetCount "]).
Proof. reflexivity. Qed.

(** A tab drag and its release: the tab is moved along, and the release
    over no other tab sends it to the last index. *)
Example drag_and_drop_tab :
  handle_all [MouseMove docked_world move_far_held;
              MouseMove docked_world move_far_held;
              MouseRelease docked_world release_left] pressed_tab
  = Some (tt, set_DockArea (Some 0%nat) (initial 0%nat),
          [accept; move (mkQPoint 35 0); raise;
           qDebug "CDockWidgetTab::mouseReleaseEvent"; qDebug "Move tab from ";
           reorderDockWidget 0%nat 0 1; clicked; QFrame_mouseReleaseEvent]).
Proof. reflexivity. Qed.

(** * Further properties of the handlers *)

Lemma handle_all_cons r rs d d' t :
  handle_all (r :: rs) d = Some (tt, d', t) ->
  exists d1 t1 t2,
    handle r d = Some (tt, d1, t1)
    /\ handle_all rs d1 = Some (tt, d', t2)
    /\ t = t1 ++ t2.
Proof.
  simpl. unfold bind. intros H.
  destruct (handle r d) as [[[[] d1] t1] |]; [| discriminate].
  destruct (handle_all rs d1) as [[[[] d2] t2] |] eqn:E2; [| discriminate].
  inversion H; subst. exists d1, t1, t2. repeat split. exact E2.
Qed.

Lemma handle_all_cons_run r rs d d1 t1 d' t2 :
  handle r d = Some (tt, d1, t1) ->
  handle_all rs d1 = Some (tt, d', t2) ->
  handle_all (r :: rs) d = Some (tt, d', t1 ++ t2).
Proof.
  intros H1 H2. simpl. unfold bind. rewrite H1, H2. reflexivity.
Qed.

(** The fields a mouse move never writes. *)
Lemma mouseMoveEvent_keeps w ev d d' t :
  mouseMoveEvent w ev d = Some (tt, d', t) ->
  DockWidget d' = DockWidget d
  /\ IsActiveTab d' = IsActiveTab d
  /\ Icon d' = Icon d
  /\ occurrences is_icon_shown t = 0%nat
  /\ occurrences is_reorder t = 0%nat
  /\ (FloatingWidget d' = FloatingWidget d
      \/ FloatingWidget d' = Some (newFloating w)).
Proof.
  destruct d as [p start act area st fl ic].
  run. unfold lastInFloating. simpl. intros H.
  destruct st, area, fl; simpl in H; case_split H;
    try discriminate; inversion H; subst; simpl;
    repeat split; auto.
Qed.

(** X1: a release always runs to completion, with or without an owning
    area. It asks the area to reorder exactly when the drag state is
    DraggingTab and the area reference is set, and then once; it ends
    with the drag state inactive and the press position null, and calls
    the default handling of the frame once. *)
Theorem release_reorders_iff_dragging_tab w ev d :
  exists d' t,
    mouseReleaseEvent w ev d = Some (tt, d', t)
    /\ DragState d' = DraggingInactive
    /\ DragStartMousePosition d' = QPointOps.null
    /\ (occurrences is_reorder t = 1%nat
        <-> (DragState d = DraggingTab /\ DockArea d <> None))
    /\ (occurrences is_reorder t <= 1)%nat
    /\ occurrences (fun e => match e with QFrame_mouseReleaseEvent => true
                                        | _ => false end) t = 1%nat.
Proof.
  destruct (mouseReleaseEvent_runs w ev d) as (t & Hrun & Hclick & Hre).
  exists (set_DragState DraggingInactive
            (set_DragStartMousePosition QPointOps.null d)), t.
  split; [exact Hrun |]. split; [reflexivity |]. split; [reflexivity |].
  assert (Hlast : occurrences (fun e => match e with QFrame_mouseReleaseEvent => true
                                              | _ => false end) t = 1%nat).
  { revert Hrun. clear. run. destruct d as [p start act area st fl ic]. simpl.
    destruct st, area; simpl; destruct (QPointOps.isNull start); simpl;
      intros H; inversion H; reflexivity. }
  unfold occurrences at 1 2. rewrite Hre.
  destruct d as [p start act area st fl ic]. simpl.
  destruct st, area as [a |]; simpl;
    (split; [| split; [lia | exact Hlast]]);
    (split; [intros H | intros [H1 H2]]);
    first [discriminate | congruence | reflexivity
          | split; [reflexivity | discriminate]].
Qed.

(** X2: a release that follows a release finds no press position and no
    tab drag: it emits neither "clicked" nor a reorder request and
    leaves the private data as they are. *)
Theorem second_release_is_silent w1 ev1 w2 ev2 d :
  exists d1 t1,
    mouseReleaseEvent w1 ev1 d = Some (tt, d1, t1)
    /\ mouseReleaseEvent w2 ev2 d1
       = Some (tt, d1, [qDebug "CDockWidgetTab::mouseReleaseEvent";
                        QFrame_mouseReleaseEvent]).
Proof.
  destruct (mouseReleaseEvent_runs w1 ev1 d) as (t1 & Hrun & _).
  do 2 eexists. split; [exact Hrun |].
  destruct d as [p start act area st fl ic]. reflexivity.
Qed.

Lemma handle_click_budget r d d' t :
  handle r d = Some (tt, d', t) ->
  (occurrences is_clicked t + pending_click d'
   <= pending_click d + (if is_left_press r then 1 else 0))%nat.
Proof.
  intros H. destruct r as [ev | w ev | w ev | active | a | i]; simpl in H.
  - unfold is_left_press. destruct (Z.eqb_spec (button ev) LeftButton) as [Hb | Hb].
    + rewrite (mousePressEvent_left ev d Hb) in H. inversion H; subst.
      unfold pending_click. simpl.
      destruct (QPointOps.isNull (pos ev)), (QPointOps.isNull (DragStartMousePosition d));
        simpl; lia.
    + rewrite (mousePressEvent_other ev d Hb) in H. inversion H; subst.
      simpl. lia.
  - destruct (mouseReleaseEvent_runs w ev d) as (t' & Hrun & Hc & _).
    rewrite Hrun in H. inversion H; subst. rewrite Hc.
    unfold pending_click. simpl.
    destruct (QPointOps.isNull (DragStartMousePosition d)); simpl; lia.
  - apply mouseMoveEvent_frame in H. destruct H as (Hs & _ & Hc & _).
    rewrite Hc. unfold pending_click. rewrite Hs. simpl. lia.
  - revert H. run. destruct (Bool.eqb (IsActiveTab d) active);
      intros H; inversion H; subst; unfold pending_click; simpl; lia.
  - revert H. run. intros H. inversion H; subst. unfold pending_click. simpl. lia.
  - revert H. run. intros H. inversion H; subst. unfold pending_click. simpl. lia.
Qed.

Lemma handle_all_click_budget rs :
  forall d d' t,
    handle_all rs d = Some (tt, d', t) ->
    (occurrences is_clicked t + pending_click d'
     <= pending_click d + left_presses rs)%nat.
Proof.
  induction rs as [| r rs IH]; intros d d' t H.
  - inversion H; subst. simpl. lia.
  - apply handle_all_cons in H. destruct H as (d1 & t1 & t2 & H1 & H2 & ->).
    apply handle_click_budget in H1. apply IH in H2.
    rewrite occurrences_app. unfold left_presses in *. simpl.
    destruct (is_left_press r); simpl; lia.
Qed.

(** X5: over any sequence of requests that a freshly constructed tab
    handles to completion, the number of "clicked" signals is at most the
    number of left-button presses in the sequence: a release emits
    "clicked" only for a press recorded since the last release. *)
Theorem clicks_bounded_by_left_presses rs p d' t :
  handle_all rs (initial p) = Some (tt, d', t) ->
  (occurrences is_clicked t <= left_presses rs)%nat.
Proof.
  intros H. apply handle_all_click_budget in H.
  unfold pending_click at 2 in H. simpl in H. lia.
Qed.

Lemma clicks_bounded_by_left_presses_witness :
  handle_all [MousePress press_at_5_3; MouseRelease docked_world release_left;
              MouseRelease docked_world release_left] (initial 0%nat)
  = Some (tt, initial 0%nat,
          [qDebug "CDockWidgetTab::mousePressEvent"; accept;
           qDebug "CDockWidgetTab::mouseReleaseEvent"; clicked;
           QFrame_mouseReleaseEvent;
           qDebug "CDockWidgetTab::mouseReleaseEvent"; QFrame_mouseReleaseEvent])
  /\ (occurrences is_clicked
        [qDebug "CDockWidgetTab::mousePressEvent"; accept;
         qDebug "CDockWidgetTab::mouseReleaseEvent"; clicked;
         QFrame_mouseReleaseEvent;
         qDebug "CDockWidgetTab::mouseReleaseEvent"; QFrame_mouseReleaseEvent]
      <= left_presses [MousePress press_at_5_3;
                       MouseRelease docked_world release_left;
                       MouseRelease docked_world release_left])%nat.
Proof.
  split; [reflexivity |].
  apply (clicks_bounded_by_left_presses
           [MousePress press_at_5_3; MouseRelease docked_world release_left;
            MouseRelease docked_world release_left]
           0%nat (initial 0%nat)).
  reflexivity.
Defined.

(** X3: a mouse move with the left button held in the DraggingTab state
    accepts the event, moves the tab to the horizontal offset of the
    pointer from the press position with the vertical coordinate 0, and
    raises it, before anything else; while the pointer is inside the
    title area the private data stay as they are, so the tab drag goes
    on. *)
Theorem dragging_tab_moves_horizontally w ev d a :
  DragState d = DraggingTab ->
  DockArea d = Some a ->
  left_held ev = true ->
  exists d' t',
    mouseMoveEvent w ev d
    = Some (tt, d',
            [accept;
             move (mkQPoint (px (mapToParent w (pos ev))
                             - px (DragStartMousePosition d)) 0);
             raise] ++ t')
    /\ (inside_title_area w a ev = true ->
        d' = d /\ (t' = [] \/ t' = [QFrame_mouseMoveEvent])).
Proof.
  intros Hst Ha Hheld.
  destruct d as [p start act area st fl ic]. simpl in Hst, Ha. subst st area.
  unfold left_held in Hheld. apply negb_true_iff in Hheld.
  unfold inside_title_area.
  run. unfold lastInFloating. simpl. rewrite Hheld. simpl.
  destruct (QRect_contains (titleAreaGeometry w a)
              (mapFromGlobal w a (globalPos ev))) eqn:Hin; simpl.
  - destruct ((1 <? count w a)
              && (startDragDistance w
                  <=? QPointOps.manhattanLength (QPointOps.sub (pos ev) start)));
      simpl; do 2 eexists; (split; [reflexivity |]); intros _; split; auto.
  - destruct (movable w); simpl.
    + destruct (isFloating w && (visibleDockAreaCount w =? 1)
                && (count w (dockAreaWidget w) =? 1)); simpl.
      * do 2 eexists. split; [reflexivity | discriminate].
      * destruct (1 <? count w a); simpl;
          (do 2 eexists; split; [reflexivity | discriminate]).
    + do 2 eexists. split; [reflexivity | discriminate].
Qed.

Lemma dragging_tab_moves_horizontally_witness :
  DragState dragged_tab = DraggingTab
  /\ DockArea dragged_tab = Some 0%nat
  /\ left_held move_far_held = true
  /\ exists d' t',
       mouseMoveEvent docked_world move_far_held dragged_tab
       = Some (tt, d',
               [accept;
                move (mkQPoint (px (mapToParent docked_world (pos move_far_held))
                                - px (DragStartMousePosition dragged_tab)) 0);
                raise] ++ t')
       /\ (inside_title_area docked_world 0%nat move_far_held = true ->
           d' = dragged_tab /\ (t' = [] \/ t' = [QFrame_mouseMoveEvent])).
Proof.
  split; [reflexivity |]. split; [reflexivity |]. split; [reflexivity |].
  apply (dragging_tab_moves_horizontally docked_world move_far_held dragged_tab 0%nat);
    reflexivity.
Defined.

(** X4: on a tab with an owning area that is not already in a floating
    drag, a mouse move runs to completion, and it ends in the
    DraggingFloatingWidget state exactly when the left button is held,
    the drag state is not inactive, the pointer is outside the title
    area, the panel is movable, and the panel is not the last one of a
    floating container. Exactly then one floating window is created; in
    every other case none is, and the floating window reference is left
    as it was. *)
Theorem move_undocks_iff w ev d a :
  DockArea d = Some a ->
  DragState d <> DraggingFloatingWidget ->
  exists d' t,
    mouseMoveEvent w ev d = Some (tt, d', t)
    /\ (DragState d' = DraggingFloatingWidget
        <-> (left_held ev = true
             /\ DragState d <> DraggingInactive
             /\ inside_title_area w a ev = false
             /\ movable w = true
             /\ lastInFloating w = false))
    /\ (DragState d' = DraggingFloatingWidget ->
        occurrences is_new_floating t = 1%nat
        /\ FloatingWidget d' = Some (newFloating w))
    /\ (DragState d' <> DraggingFloatingWidget ->
        occurrences is_new_floating t = 0%nat
        /\ FloatingWidget d' = FloatingWidget d).
Proof.
  intros Ha Hst.
  destruct d as [p start act area st fl ic]. simpl in Hst, Ha. subst area.
  unfold left_held, inside_title_area, lastInFloating.
  run. unfold lastInFloating. simpl.
  destruct (Z.land (buttons ev) LeftButton =? 0); simpl.
  { do 2 eexists. split; [reflexivity |]. simpl.
    split; [split; [discriminate | intros (H & _); discriminate] |].
    split; [discriminate | intros _; split; reflexivity]. }
  destruct st; simpl; try (exfalso; apply Hst; reflexivity).
  - do 2 eexists. split; [reflexivity |]. simpl.
    split; [split; [discriminate | intros (_ & H & _); exfalso; apply H; reflexivity] |].
    split; [discriminate | intros _; split; reflexivity].
  - destruct (QRect_contains (titleAreaGeometry w a)
                (mapFromGlobal w a (globalPos ev))); simpl.
    + destruct ((1 <? count w a)
                && (startDragDistance w
                    <=? QPointOps.manhattanLength (QPointOps.sub (pos ev) start)));
        simpl; do 2 eexists; (split; [reflexivity |]); simpl;
        (split; [split; [discriminate | intros (_ & _ & H & _); discriminate] |]);
        (split; [discriminate | intros _; split; reflexivity]).
    + destruct (movable w); simpl.
      * destruct (isFloating w && (visibleDockAreaCount w =? 1)
                  && (count w (dockAreaWidget w) =? 1)); simpl.
        -- do 2 eexists. split; [reflexivity |]. simpl.
           split; [split; [discriminate
                          | intros (_ & _ & _ & _ & H); discriminate] |].
           split; [discriminate | intros _; split; reflexivity].
        -- destruct (1 <? count w a); simpl;
             (do 2 eexists; split; [reflexivity |]; simpl;
              split; [split; [intros _; repeat split; discriminate
                             | reflexivity] |];
              split; [intros _; split; reflexivity
                     | intros H; exfalso; apply H; reflexivity]).
      * do 2 eexists. split; [reflexivity |]. simpl.
        split; [split; [discriminate
                       | intros (_ & _ & _ & H & _); discriminate] |].
        split; [discriminate | intros _; split; reflexivity].
  - destruct (QRect_contains (titleAreaGeometry w a)
                (mapFromGlobal w a (globalPos ev))); simpl.
    + destruct ((1 <? count w a)
                && (startDragDistance w
                    <=? QPointOps.manhattanLength (QPointOps.sub (pos ev) start)));
        simpl; do 2 eexists; (split; [reflexivity |]); simpl;
        (split; [split; [discriminate | intros (_ & _ & H & _); discriminate] |]);
        (split; [discriminate | intros _; split; reflexivity]).
    + destruct (movable w); simpl.
      * destruct (isFloating w && (visibleDockAreaCount w =? 1)
                  && (count w (dockAreaWidget w) =? 1)); simpl.
        -- do 2 eexists. split; [reflexivity |]. simpl.
           split; [split; [discriminate
                          | intros (_ & _ & _ & _ & H); discriminate] |].
           split; [discriminate | intros _; split; reflexivity].
        -- destruct (1 <? count w a); simpl;
             (do 2 eexists; split; [reflexivity |]; simpl;
              split; [split; [intros _; repeat split; discriminate
                             | reflexivity] |];
              split; [intros _; split; reflexivity
                     | intros H; exfalso; apply H; reflexivity]).
      * do 2 eexists. split; [reflexivity |]. simpl.
        split; [split; [discriminate
                       | intros (_ & _ & _ & H & _); discriminate] |].
        split; [discriminate | intros _; split; reflexivity].
Qed.

Lemma move_undocks_iff_witness :
  DockArea pressed_tab = Some 0%nat
  /\ DragState pressed_tab <> DraggingFloatingWidget
  /\ exists d' t,
       mouseMoveEvent docked_world move_out_held pressed_tab = Some (tt, d', t)
       /\ (DragState d' = DraggingFloatingWidget
           <-> (left_held move_out_held = true
                /\ DragState pressed_tab <> DraggingInactive
                /\ inside_title_area docked_world 0%nat move_out_held = false
                /\ movable docked_world = true
                /\ lastInFloating docked_world = false))
       /\ (DragState d' = DraggingFloatingWidget ->
           occurrences is_new_floating t = 1%nat
           /\ FloatingWidget d' = Some (newFloating docked_world))
       /\ (DragState d' <> DraggingFloatingWidget ->
           occurrences is_new_floating t = 0%nat
           /\ FloatingWidget d' = FloatingWidget pressed_tab).
Proof.
  split; [reflexivity |]. split; [discriminate |].
  apply (move_undocks_iff docked_world move_out_held pressed_tab 0%nat).
  - reflexivity.
  - discriminate.
Defined.

(** What each request leaves of the private data, and what it puts in
    the trace. *)
Lemma handle_keeps r d d' t :
  handle r d = Some (tt, d', t) ->
  DockWidget d' = DockWidget d
  /\ (sets_area r = false -> DockArea d' = DockArea d)
  /\ (sets_icon r = false ->
      Icon d' = Icon d /\ occurrences is_icon_shown t = 0%nat)
  /\ (sets_active r = false ->
      IsActiveTab d' = IsActiveTab d /\ occurrences is_activeTabChanged t = 0%nat)
  /\ (FloatingWidget d <> None -> FloatingWidget d' <> None).
Proof.
  intros H. destruct r as [ev | w ev | w ev | active | a | i]; simpl in H.
  - destruct (Z.eq_dec (button ev) LeftButton) as [Hb | Hb].
    + rewrite (mousePressEvent_left ev d Hb) in H. inversion H; subst.
      simpl. repeat split; auto.
    + rewrite (mousePressEvent_other ev d Hb) in H. inversion H; subst.
      repeat split; auto.
  - revert H. run. destruct d as [p start act area st fl ic]. simpl.
    destruct st, area; simpl; destruct (QPointOps.isNull start); simpl;
      intros H; inversion H; subst; simpl; repeat split; auto.
  - pose proof (mouseMoveEvent_frame w ev d d' t H) as (_ & Harea & _).
    pose proof (mouseMoveEvent_keeps w ev d d' t H)
      as (Hp & Hact & Hic & Hshown & _ & Hfl).
    assert (Hnote : occurrences is_activeTabChanged t = 0%nat).
    { revert H. clear. destruct d as [p start act area st fl ic].
      run. unfold lastInFloating. simpl. intros H.
      destruct st, area, fl; simpl in H; case_split H;
        try discriminate; inversion H; reflexivity. }
    repeat split; auto.
    intros Hset. destruct Hfl as [E | E]; rewrite E; [exact Hset | discriminate].
  - revert H. run. destruct (Bool.eqb (IsActiveTab d) active);
      intros H; inversion H; subst; simpl; repeat split; auto; discriminate.
  - revert H. run. intros H. inversion H; subst. simpl.
    repeat split; auto; discriminate.
  - revert H. run. intros H. inversion H; subst. simpl.
    repeat split; auto; discriminate.
Qed.

Lemma last_cons_default (l : list bool) :
  forall b x, last (b :: l) x = last l b.
Proof.
  induction l as [| c l IH]; intros b x; [reflexivity |].
  change (last (b :: c :: l) x) with (last (c :: l) x).
  rewrite (IH c x), (IH c b). reflexivity.
Qed.

(** X6: a sequence of [setActiveTab] calls always runs to completion; it
    emits "active changed" once for each call whose value differs from
    the flag stored at that moment, restyles the tab as often, and leaves
    the flag at the last value given. *)
Theorem activeTabChanged_counts_flips bs :
  forall d,
    exists d' t,
      handle_all (map SetActiveTab bs) d = Some (tt, d', t)
      /\ IsActiveTab d' = last bs (IsActiveTab d)
      /\ occurrences is_activeTabChanged t = flips (IsActiveTab d) bs
      /\ occurrences (is_polish TheTab) t = flips (IsActiveTab d) bs.
Proof.
  induction bs as [| b bs IH]; intros d.
  - exists d, []. repeat split.
  - destruct (Bool.eqb (IsActiveTab d) b) eqn:E.
    + apply eqb_prop in E. subst b.
      destruct (IH d) as (d' & t & Hrun & Hlast & Hn & Hp).
      exists d', ([] ++ t).
      split; [apply (handle_all_cons_run _ _ d d []);
              [apply setActiveTab_same | exact Hrun] |].
      simpl. rewrite eqb_reflx. simpl.
      split; [| split; assumption].
      rewrite Hlast. symmetry. apply last_cons_default.
    + apply eqb_false_iff in E.
      destruct (IH (set_IsActiveTab b d)) as (d' & t & Hrun & Hlast & Hn & Hp).
      eexists. eexists.
      split; [apply (handle_all_cons_run _ _ d (set_IsActiveTab b d));
              [apply (setActiveTab_changed d b E) | exact Hrun] |].
      simpl in Hlast, Hn, Hp.
      assert (Eb : Bool.eqb (IsActiveTab d) b = false)
        by (apply eqb_false_iff; exact E).
      split.
      * rewrite Hlast. symmetry. apply last_cons_default.
      * rewrite !occurrences_app, Hn, Hp. simpl. rewrite Eb. split; reflexivity.
Qed.

Lemma handle_all_keeps rs :
  forall d d' t,
    handle_all rs d = Some (tt, d', t) ->
    DockWidget d' = DockWidget d
    /\ (forallb (fun r => negb (sets_area r)) rs = true ->
        DockArea d' = DockArea d)
    /\ (forallb (fun r => negb (sets_icon r)) rs = true ->
        Icon d' = Icon d /\ occurrences is_icon_shown t = 0%nat)
    /\ (forallb (fun r => negb (sets_active r)) rs = true ->
        IsActiveTab d' = IsActiveTab d
        /\ occurrences is_activeTabChanged t = 0%nat)
    /\ (FloatingWidget d <> None -> FloatingWidget d' <> None).
Proof.
  induction rs as [| r rs IH]; intros d d' t H.
  - inversion H; subst. repeat split; auto.
  - apply handle_all_cons in H. destruct H as (d1 & t1 & t2 & H1 & H2 & ->).
    apply handle_keeps in H1. destruct H1 as (Hp & Ha & Hi & Hact & Hfl).
    apply IH in H2. destruct H2 as (Hp2 & Ha2 & Hi2 & Hact2 & Hfl2).
    simpl. rewrite !andb_true_iff, !negb_true_iff.
    split; [congruence |].
    split; [intros [E1 E2]; rewrite (Ha2 E2); exact (Ha E1) |].
    split.
    { intros [E1 E2]. destruct (Hi E1) as [X1 Y1]. destruct (Hi2 E2) as [X2 Y2].
      split; [congruence |]. rewrite occurrences_app, Y1, Y2. reflexivity. }
    split.
    { intros [E1 E2]. destruct (Hact E1) as [X1 Y1]. destruct (Hact2 E2) as [X2 Y2].
      split; [congruence |]. rewrite occurrences_app, Y1, Y2. reflexivity. }
    auto.
Qed.

(** X7: the area reference is written by [setDockAreaWidget] alone:
    after [setDockAreaWidget a], whatever mouse events, [setActiveTab]
    and [setIcon] calls follow and run to completion, [dockAreaWidget]
    returns [a]. *)
Theorem dockAreaWidget_kept_until_set a rs d d' t :
  forallb (fun r => negb (sets_area r)) rs = true ->
  handle_all (SetDockAreaWidget a :: rs) d = Some (tt, d', t) ->
  tab_dockAreaWidget d' = Some (a, d', []).
Proof.
  intros Hrs H.
  apply handle_all_cons in H. destruct H as (d1 & t1 & t2 & H1 & H2 & _).
  simpl in H1. revert H1. run. intros H1. inversion H1; subst.
  apply handle_all_keeps in H2. destruct H2 as (_ & Ha & _).
  unfold tab_dockAreaWidget, gets. rewrite (Ha Hrs). reflexivity.
Qed.

Lemma dockAreaWidget_kept_until_set_witness :
  forallb (fun r => negb (sets_area r))
    [MousePress press_at_5_3; MouseMove docked_world move_out_held;
     MouseRelease docked_world release_left] = true
  /\ handle_all [SetDockAreaWidget (Some 0%nat); MousePress press_at_5_3;
                 MouseMove docked_world move_out_held;
                 MouseRelease docked_world release_left] (initial 0%nat)
     = Some (tt, set_FloatingWidget (Some 7%nat)
                   (set_DockArea (Some 0%nat) (initial 0%nat)),
             [qDebug "CDockWidgetTab::mousePressEvent"; accept] ++ floating_trace
             ++ [qDebug "CDockWidgetTab::mouseReleaseEvent"; clicked;
                 QFrame_mouseReleaseEvent])
  /\ tab_dockAreaWidget
       (set_FloatingWidget (Some 7%nat) (set_DockArea (Some 0%nat) (initial 0%nat)))
     = Some (Some 0%nat,
             set_FloatingWidget (Some 7%nat)
               (set_DockArea (Some 0%nat) (initial 0%nat)), []).
Proof.
  split; [reflexivity |]. split; [reflexivity |].
  apply (dockAreaWidget_kept_until_set (Some 0%nat)
           [MousePress press_at_5_3; MouseMove docked_world move_out_held;
            MouseRelease docked_world release_left]
           (initial 0%nat) _
           ([qDebug "CDockWidgetTab::mousePressEvent"; accept] ++ floating_trace
            ++ [qDebug "CDockWidgetTab::mouseReleaseEvent"; clicked;
                QFrame_mouseReleaseEvent])).
  - reflexivity.
  - reflexivity.
Defined.

(** X8: the icon is written by [setIcon] alone: after [setIcon i],
    whatever requests other than [setIcon] follow and run to completion,
    [icon] returns [i], and the icon label was made visible exactly once,
    by that [setIcon]. *)
Theorem icon_kept_until_set i rs d d' t :
  forallb (fun r => negb (sets_icon r)) rs = true ->
  handle_all (SetIcon i :: rs) d = Some (tt, d', t) ->
  icon d' = Some (i, d', [])
  /\ occurrences is_icon_shown t = 1%nat.
Proof.
  intros Hrs H.
  apply handle_all_cons in H. destruct H as (d1 & t1 & t2 & H1 & H2 & ->).
  simpl in H1. revert H1. run. intros H1. inversion H1; subst.
  apply handle_all_keeps in H2. destruct H2 as (_ & _ & Hi & _).
  destruct (Hi Hrs) as [Hicon Hshown].
  split.
  - unfold icon, gets. rewrite Hicon. reflexivity.
  - rewrite occurrences_app, Hshown. reflexivity.
Qed.

Lemma icon_kept_until_set_witness :
  forallb (fun r => negb (sets_icon r))
    [SetActiveTab true; MousePress press_at_5_3] = true
  /\ handle_all [SetIcon (IconOf 3); SetActiveTab true; MousePress press_at_5_3]
                (initial 0%nat)
     = Some (tt, mkPrivate 0%nat (mkQPoint 5 3) true None DraggingMousePressed
                   None (IconOf 3),
             [setPixmap (IconOf 3) (mkQSize 16 16); setVisible IconLabel true;
              unpolish TheTab; polish TheTab; unpolish TitleLabel;
              polish TitleLabel; update; activeTabChanged;
              qDebug "CDockWidgetTab::mousePressEvent"; accept])
  /\ icon (mkPrivate 0%nat (mkQPoint 5 3) true None DraggingMousePressed
             None (IconOf 3))
     = Some (IconOf 3,
             mkPrivate 0%nat (mkQPoint 5 3) true None DraggingMousePressed
               None (IconOf 3), [])
  /\ occurrences is_icon_shown
       [setPixmap (IconOf 3) (mkQSize 16 16); setVisible IconLabel true;
        unpolish TheTab; polish TheTab; unpolish TitleLabel;
        polish TitleLabel; update; activeTabChanged;
        qDebug "CDockWidgetTab::mousePressEvent"; accept] = 1%nat.
Proof.
  split; [reflexivity |]. split; [reflexivity |].
  apply (icon_kept_until_set (IconOf 3)
           [SetActiveTab true; MousePress press_at_5_3] (initial 0%nat)).
  - reflexivity.
  - reflexivity.
Defined.

(** X9: the constructor hides the icon label, shows the title label
    with the title of the panel, and stores a null icon; as long as
    [setIcon] is not called, no request makes the icon label visible and
    the icon stays null. *)
Theorem no_icon_until_setIcon p rs d' t :
  forallb (fun r => negb (sets_icon r)) rs = true ->
  handle_all rs (initial p) = Some (tt, d', t) ->
  construct p = Some (tt, initial p,
                      [setVisible IconLabel false; setVisible TitleLabel true;
                       setText TitleLabel p])
  /\ icon d' = Some (NullIcon, d', [])
  /\ occurrences is_icon_shown t = 0%nat.
Proof.
  intros Hrs H. split; [reflexivity |].
  apply handle_all_keeps in H. destruct H as (_ & _ & Hi & _).
  destruct (Hi Hrs) as [Hicon Hshown].
  split; [unfold icon, gets; rewrite Hicon; reflexivity | exact Hshown].
Qed.

Lemma no_icon_until_setIcon_witness :
  forallb (fun r => negb (sets_icon r))
    [SetDockAreaWidget (Some 0%nat); MousePress press_at_5_3] = true
  /\ handle_all [SetDockAreaWidget (Some 0%nat); MousePress press_at_5_3]
                (initial 0%nat)
     = Some (tt, pressed_tab, [qDebug "CDockWidgetTab::mousePressEvent"; accept])
  /\ construct 0%nat
     = Some (tt, initial 0%nat,
             [setVisible IconLabel false; setVisible TitleLabel true;
              setText TitleLabel 0%nat])
  /\ icon pressed_tab = Some (NullIcon, pressed_tab, [])
  /\ occurrences is_icon_shown [qDebug "CDockWidgetTab::mousePressEvent"; accept]
     = 0%nat.
Proof.
  split; [reflexivity |]. split; [reflexivity |].
  apply (no_icon_until_setIcon 0%nat
           [SetDockAreaWidget (Some 0%nat); MousePress press_at_5_3] pressed_tab).
  - reflexivity.
  - reflexivity.
Defined.

(** X10: the tab keeps the panel it was constructed for: after any
    requests that run to completion, [dockWidget] returns the panel given
    to the constructor. *)
Theorem dockWidget_is_constructor_panel p rs d' t :
  handle_all rs (initial p) = Some (tt, d', t) ->
  dockWidget d' = Some (p, d', []).
Proof.
  intros H. apply handle_all_keeps in H. destruct H as (Hp & _).
  unfold dockWidget, gets. rewrite Hp. reflexivity.
Qed.

Lemma dockWidget_is_constructor_panel_witness :
  handle_all [SetDockAreaWidget (Some 0%nat); MousePress press_at_5_3;
              MouseMove docked_world move_out_held] (initial 0%nat)
  = Some (tt, floating_tab,
          [qDebug "CDockWidgetTab::mousePressEvent"; accept] ++ floating_trace)
  /\ dockWidget floating_tab = Some (0%nat, floating_tab, []).
Proof.
  split; [reflexivity |].
  apply (dockWidget_is_constructor_panel 0%nat
           [SetDockAreaWidget (Some 0%nat); MousePress press_at_5_3;
            MouseMove docked_world move_out_held] floating_tab
           ([qDebug "CDockWidgetTab::mousePressEvent"; accept] ++ floating_trace)).
  reflexivity.
Defined.

(** X11: the floating window reference is never reset: once it is set,
    it is still set after any requests that run to completion, the
    release that ends the floating drag included. *)
Theorem floating_widget_never_cleared rs d d' t :
  FloatingWidget d <> None ->
  handle_all rs d = Some (tt, d', t) ->
  FloatingWidget d' <> None.
Proof.
  intros Hset H. apply handle_all_keeps in H.
  destruct H as (_ & _ & _ & _ & Hfl). exact (Hfl Hset).
Qed.

Lemma floating_widget_never_cleared_witness :
  FloatingWidget floating_tab <> None
  /\ handle_all [MouseRelease docked_world release_left;
                 MousePress press_at_origin] floating_tab
     = Some (tt, mkPrivate 0%nat (mkQPoint 0 0) false (Some 0%nat)
                   DraggingMousePressed (Some 7%nat) NullIcon,
             [qDebug "CDockWidgetTab::mouseReleaseEvent"; clicked;
              QFrame_mouseReleaseEvent;
              qDebug "CDockWidgetTab::mousePressEvent"; accept])
  /\ FloatingWidget
       (mkPrivate 0%nat (mkQPoint 0 0) false (Some 0%nat)
          DraggingMousePressed (Some 7%nat) NullIcon) <> None.
Proof.
  split; [discriminate |]. split; [reflexivity |].
  apply (floating_widget_never_cleared
           [MouseRelease docked_world release_left; MousePress press_at_origin]
           floating_tab _
           [qDebug "CDockWidgetTab::mouseReleaseEvent"; clicked;
            QFrame_mouseReleaseEvent;
            qDebug "CDockWidgetTab::mousePressEvent"; accept]).
  - discriminate.
  - reflexivity.
Defined.

(** X12: during a floating drag, mouse moves with the left button held
    are all delegated to the one floating window that is stored: each
    calls its [moveFloating] and then the default handling of the frame,
    and the private data stay as they are; neither the area nor the
    panel is consulted, and no second window is created. *)
Theorem floating_drag_follows_stored_window (ms : list (World * QMouseEvent)) :
  forall d f,
    DragState d = DraggingFloatingWidget ->
    FloatingWidget d = Some f ->
    forallb (fun m => left_held (snd m)) ms = true ->
    handle_all (moves ms) d
    = Some (tt, d, flat_map (fun _ => [moveFloating f; QFrame_mouseMoveEvent]) ms).
Proof.
  induction ms as [| [w ev] ms IH]; intros d f Hst Hf Hheld.
  - reflexivity.
  - simpl in Hheld. apply andb_true_iff in Hheld. destruct Hheld as [Hev Hms].
    change (moves ((w, ev) :: ms)) with (MouseMove w ev :: moves ms).
    change (flat_map (fun _ => [moveFloating f; QFrame_mouseMoveEvent]) ((w, ev) :: ms))
      with ([moveFloating f; QFrame_mouseMoveEvent]
            ++ flat_map (fun _ => [moveFloating f; QFrame_mouseMoveEvent]) ms).
    apply (handle_all_cons_run _ _ d d).
    + unfold left_held in Hev. apply negb_true_iff in Hev.
      destruct d as [p start act area st fl ic]. simpl in Hst, Hf. subst st fl.
      simpl. run. simpl. rewrite Hev. reflexivity.
    + exact (IH d f Hst Hf Hms).
Qed.

Lemma floating_drag_follows_stored_window_witness :
  DragState floating_tab = DraggingFloatingWidget
  /\ FloatingWidget floating_tab = Some 7%nat
  /\ forallb (fun m => left_held (snd m))
       [(docked_world, move_out_held); (floating_single_world, move_far_held)] = true
  /\ handle_all
       (moves [(docked_world, move_out_held); (floating_single_world, move_far_held)])
       floating_tab
     = Some (tt, floating_tab,
             flat_map (fun _ => [moveFloating 7%nat; QFrame_mouseMoveEvent])
               [(docked_world, move_out_held); (floating_single_world, move_far_held)]).
Proof.
  split; [reflexivity |]. split; [reflexivity |]. split; [reflexivity |].
  apply (floating_drag_follows_stored_window
           [(docked_world, move_out_held); (floating_single_world, move_far_held)]
           floating_tab 7%nat); reflexivity.
Defined.

(** X13: while the drag state is inactive, as before the first press and
    after every release, mouse moves change nothing, with the left
    button held or not: each is only forwarded to the default handling of
    the frame. *)
Theorem inactive_moves_are_forwarded (ms : list (World * QMouseEvent)) d :
  DragState d = DraggingInactive ->
  handle_all (moves ms) d
  = Some (tt, d, repeat QFrame_mouseMoveEvent (List.length ms)).
Proof.
  intros Hst. induction ms as [| [w ev] ms IH]; [reflexivity |].
  change (moves ((w, ev) :: ms)) with (MouseMove w ev :: moves ms).
  change (repeat QFrame_mouseMoveEvent (List.length ((w, ev) :: ms)))
    with ([QFrame_mouseMoveEvent] ++ repeat QFrame_mouseMoveEvent (List.length ms)).
  apply (handle_all_cons_run _ _ d d); [| exact IH].
  simpl. rewrite (mouseMoveEvent_released w ev d (or_intror Hst)).
  destruct d as [p start act area st fl ic]. simpl in Hst. subst st. reflexivity.
Qed.

Lemma inactive_moves_are_forwarded_witness :
  DragState (initial 0%nat) = DraggingInactive
  /\ handle_all (moves [(docked_world, move_far_held); (docked_world, move_out_held)])
       (initial 0%nat)
     = Some (tt, initial 0%nat, repeat QFrame_mouseMoveEvent 2).
Proof.
  split; [reflexivity |].
  apply (inactive_moves_are_forwarded
           [(docked_world, move_far_held); (docked_world, move_out_held)]
           (initial 0%nat)).
  reflexivity.
Defined.

(** X14: the DraggingTab state is entered by one path only: a request
    that takes a tab that is not in a tab drag into DraggingTab is a
    mouse move with the left button held, handled in the MousePressed
    state, with the pointer inside the title area of an owning area of
    more than one tab, at a Manhattan distance from the press position
    that reaches the drag start distance. *)
Theorem tab_drag_starts_only_from_pressed r d d' t :
  handle r d = Some (tt, d', t) ->
  DragState d' = DraggingTab ->
  DragState d <> DraggingTab ->
  exists w ev a,
    r = MouseMove w ev
    /\ DragState d = DraggingMousePressed
    /\ DockArea d = Some a
    /\ left_held ev = true
    /\ inside_title_area w a ev = true
    /\ 1 < count w a
    /\ startDragDistance w
       <= QPointOps.manhattanLength
            (QPointOps.sub (pos ev) (DragStartMousePosition d)).
Proof.
  intros H Hafter Hbefore.
  destruct r as [ev | w ev | w ev | active | a | i]; simpl in H.
  - exfalso. destruct (Z.eq_dec (button ev) LeftButton) as [Hb | Hb].
    + rewrite (mousePressEvent_left ev d Hb) in H. inversion H; subst. discriminate.
    + rewrite (mousePressEvent_other ev d Hb) in H. inversion H; subst. auto.
  - exfalso. destruct (mouseReleaseEvent_runs w ev d) as (t' & Hrun & _).
    rewrite Hrun in H. inversion H; subst. discriminate.
  - destruct d as [p start act area st fl ic]. simpl in Hbefore.
    unfold left_held, inside_title_area.
    revert H. run. unfold lastInFloating. simpl. intros H.
    destruct (Z.land (buttons ev) LeftButton =? 0) eqn:Hheld; simpl in H.
    { inversion H; subst. discriminate. }
    destruct st; simpl in H; try (exfalso; apply Hbefore; reflexivity).
    + inversion H; subst. discriminate.
    + destruct area as [a |]; simpl in H; [| discriminate].
      destruct (QRect_contains (titleAreaGeometry w a)
                  (mapFromGlobal w a (globalPos ev))) eqn:Hin; simpl in H.
      * destruct (Z.ltb_spec 1 (count w a)) as [Hc | Hc]; simpl in H.
        -- destruct (Z.leb_spec (startDragDistance w)
                       (QPointOps.manhattanLength (QPointOps.sub (pos ev) start)))
             as [Hd | Hd]; simpl in H.
           ++ exists w, ev, a. simpl. rewrite Hheld.
              repeat split; try reflexivity; assumption.
           ++ inversion H; subst. discriminate.
        -- inversion H; subst. discriminate.
      * case_split H; try discriminate; inversion H; subst; discriminate.
    + destruct fl; simpl in H; [| discriminate].
      inversion H; subst. discriminate.
  - exfalso. revert H. run. destruct (Bool.eqb (IsActiveTab d) active);
      intros H; inversion H; subst; auto.
  - exfalso. revert H. run. intros H. inversion H; subst. auto.
  - exfalso. revert H. run. intros H. inversion H; subst. auto.
Qed.

Lemma tab_drag_starts_only_from_pressed_witness :
  handle (MouseMove docked_world move_far_held) pressed_tab
  = Some (tt, dragged_tab, [])
  /\ DragState dragged_tab = DraggingTab
  /\ DragState pressed_tab <> DraggingTab
  /\ exists w ev a,
       MouseMove docked_world move_far_held = MouseMove w ev
       /\ DragState pressed_tab = DraggingMousePressed
       /\ DockArea pressed_tab = Some a
       /\ left_held ev = true
       /\ inside_title_area w a ev = true
       /\ 1 < count w a
       /\ startDragDistance w
          <= QPointOps.manhattanLength
               (QPointOps.sub (pos ev) (DragStartMousePosition pressed_tab)).
Proof.
  split; [reflexivity |]. split; [reflexivity |]. split; [discriminate |].
  apply (tab_drag_starts_only_from_pressed
           (MouseMove docked_world move_far_held) pressed_tab dragged_tab []).
  - reflexivity.
  - reflexivity.
  - discriminate.
Defined.

(** X15: a mouse move is undefined, by the dereference of a null
    pointer, exactly when the left button is held and either the drag
    state is MousePressed or DraggingTab while the area reference is
    null, or the drag state is DraggingFloatingWidget while the floating
    window reference is null. Unlike the release, the move does not test
    the area reference before it uses it. *)
Theorem mouseMoveEvent_undefined_iff w ev d :
  mouseMoveEvent w ev d = None
  <-> (left_held ev = true
       /\ (((DragState d = DraggingMousePressed \/ DragState d = DraggingTab)
            /\ DockArea d = None)
           \/ (DragState d = DraggingFloatingWidget /\ FloatingWidget d = None))).
Proof.
  destruct d as [p start act area st fl ic].
  unfold left_held. run. unfold lastInFloating. simpl.
  destruct (Z.land (buttons ev) LeftButton =? 0); simpl.
  { split; [discriminate | intros [H _]; discriminate]. }
  destruct st; simpl.
  - split; [discriminate |].
    intros [_ [[[H | H] _] | [H _]]]; discriminate.
  - destruct area as [a |]; simpl.
    + split; [| intros [_ [[_ H] | [H _]]]; discriminate].
      intros H. exfalso. case_split H; discriminate.
    + split; [intros _ | reflexivity].
      split; [reflexivity |]. left. split; [left |]; reflexivity.
  - destruct area as [a |]; simpl.
    + split; [| intros [_ [[_ H] | [H _]]]; discriminate].
      intros H. exfalso. case_split H; discriminate.
    + split; [intros _ | reflexivity].
      split; [reflexivity |]. left. split; [right |]; reflexivity.
  - destruct fl as [f |]; simpl.
    + split; [discriminate |].
      intros [_ [[[H | H] _] | [_ H]]]; discriminate.
    + split; [intros _ | reflexivity].
      split; [reflexivity |]. right. split; reflexivity.
Qed.

Lemma mouseMoveEvent_defined w ev d :
  floating_widget_set d ->
  DockArea d <> None ->
  exists d' t, mouseMoveEvent w ev d = Some (tt, d', t).
Proof.
  intros Hinv Harea.
  destruct d as [p start act area st fl ic]. simpl in Harea.
  destruct area as [a |]; [| contradiction].
  assert (Hfl : st = DraggingFloatingWidget -> exists f, fl = Some f)
    by exact Hinv.
  run. unfold lastInFloating. simpl.
  destruct (Z.land (buttons ev) LeftButton =? 0); simpl; [eauto |].
  destruct st; simpl; [eauto | | |].
  - destruct (QRect_contains _ _); simpl;
      [destruct (_ && _); simpl; eauto |].
    destruct (movable w); simpl; [| eauto].
    destruct (_ && _); simpl; [eauto |].
    destruct (1 <? count w a); simpl; eauto.
  - destruct (QRect_contains _ _); simpl;
      [destruct (_ && _); simpl; eauto |].
    destruct (movable w); simpl; [| eauto].
    destruct (_ && _); simpl; [eauto |].
    destruct (1 <? count w a); simpl; eauto.
  - destruct (Hfl eq_refl) as (f & ->). simpl. eauto.
Qed.

(** X16: on a tab that the handlers can reach and that has an owning
    area, every request runs to completion: no handler dereferences a
    null pointer. *)
Theorem handlers_complete_with_area r d :
  reachable d ->
  DockArea d <> None ->
  exists d' t, handle r d = Some (tt, d', t).
Proof.
  intros Hr Harea.
  destruct r as [ev | w ev | w ev | active | a | i]; simpl.
  - destruct (Z.eq_dec (button ev) LeftButton) as [Hb | Hb].
    + rewrite (mousePressEvent_left ev d Hb). eauto.
    + rewrite (mousePressEvent_other ev d Hb). eauto.
  - destruct (mouseReleaseEvent_runs w ev d) as (t & Hrun & _). eauto.
  - apply mouseMoveEvent_defined; [| exact Harea].
    apply reachable_floating_widget_set. exact Hr.
  - run. destruct (Bool.eqb (IsActiveTab d) active); eauto.
  - run. eauto.
  - run. eauto.
Qed.

Lemma handlers_complete_with_area_witness :
  reachable pressed_tab
  /\ DockArea pressed_tab <> None
  /\ exists d' t,
       handle (MouseMove docked_world move_out_held) pressed_tab = Some (tt, d', t).
Proof.
  split; [exact reachable_pressed_tab |]. split; [discriminate |].
  apply (handlers_complete_with_area (MouseMove docked_world move_out_held)
           pressed_tab).
  - exact reachable_pressed_tab.
  - discriminate.
Defined.

(** X17: a tab drag from press to drop. On a tab with an owning area, a
    left press, a move with the button held that is inside the title
    area of an area of more than one tab and far enough from the press,
    and a release: the three handlers run to completion, the area is
    asked once to move the tab from its index to the tab under the
    release position, or to the last index when there is none, "clicked"
    is emitted as for a plain click, and the tab ends inactive with the
    press position cleared. *)
Theorem tab_drag_and_drop evp w1 ev1 w2 ev2 d a :
  DockArea d = Some a ->
  button evp = LeftButton ->
  left_held ev1 = true ->
  inside_title_area w1 a ev1 = true ->
  1 < count w1 a ->
  startDragDistance w1
  <= QPointOps.manhattanLength (QPointOps.sub (pos ev1) (pos evp)) ->
  exists t,
    handle_all [MousePress evp; MouseMove w1 ev1; MouseRelease w2 ev2] d
    = Some (tt, set_DragState DraggingInactive
                  (set_DragStartMousePosition QPointOps.null d), t)
    /\ filter is_reorder t
       = [reorderDockWidget a (tabIndex w2 a (DockWidget d))
            (if -1 =? indexOfContentByTitlePos w2 a
                        (mapFromGlobal w2 a (globalPos ev2))
             then count w2 a - 1
             else indexOfContentByTitlePos w2 a
                    (mapFromGlobal w2 a (globalPos ev2)))]
    /\ occurrences is_clicked t
       = (if QPointOps.isNull (pos evp) then 0 else 1)%nat.
Proof.
  intros Ha Hb Hheld Hin Hc Hd.
  destruct d as [p start act area st fl ic]. simpl in Ha. subst area.
  unfold left_held in Hheld. apply negb_true_iff in Hheld.
  unfold inside_title_area in Hin.
  apply Z.ltb_lt in Hc. apply Z.leb_le in Hd.
  unfold handle_all, handle. run. simpl.
  rewrite Hb. simpl. rewrite Hheld. simpl. rewrite Hin. simpl.
  rewrite Hc, Hd. simpl.
  destruct (QPointOps.isNull (pos evp)); simpl;
    (eexists; split; [reflexivity |]; split; reflexivity).
Qed.

Lemma tab_drag_and_drop_witness :
  DockArea (set_DockArea (Some 0%nat) (initial 0%nat)) = Some 0%nat
  /\ button press_at_5_3 = LeftButton
  /\ left_held move_far_held = true
  /\ inside_title_area docked_world 0%nat move_far_held = true
  /\ 1 < count docked_world 0%nat
  /\ startDragDistance docked_world
     <= QPointOps.manhattanLength
          (QPointOps.sub (pos move_far_held) (pos press_at_5_3))
  /\ exists t,
       handle_all [MousePress press_at_5_3; MouseMove docked_world move_far_held;
                   MouseRelease docked_world release_left]
                  (set_DockArea (Some 0%nat) (initial 0%nat))
       = Some (tt, set_DragState DraggingInactive
                     (set_DragStartMousePosition QPointOps.null
                        (set_DockArea (Some 0%nat) (initial 0%nat))), t)
       /\ filter is_reorder t
          = [reorderDockWidget 0%nat
               (tabIndex docked_world 0%nat
                  (DockWidget (set_DockArea (Some 0%nat) (initial 0%nat))))
               (if -1 =? indexOfContentByTitlePos docked_world 0%nat
                           (mapFromGlobal docked_world 0%nat (globalPos release_left))
                then count docked_world 0%nat - 1
                else indexOfContentByTitlePos docked_world 0%nat
                       (mapFromGlobal docked_world 0%nat (globalPos release_left)))]
       /\ occurrences is_clicked t
          = (if QPointOps.isNull (pos press_at_5_3) then 0 else 1)%nat.
Proof.
  split; [reflexivity |]. split; [reflexivity |]. split; [reflexivity |].
  split; [reflexivity |]. split; [reflexivity |]. split; [discriminate |].
  apply (tab_drag_and_drop press_at_5_3 docked_world move_far_held docked_world
           release_left (set_DockArea (Some 0%nat) (initial 0%nat)) 0%nat).
  - reflexivity.
  - reflexivity.
  - reflexivity.
  - reflexivity.
  - reflexivity.
  - discriminate.
Defined.
